(** * RunGreatExpectationsValidation.run: a shallow embedding

    Source: src/prefect/tasks/great_expectations/checkpoints.py

    The task is glue between three foreign systems: the Great Expectations
    engine (data contexts, checkpoints, suites, batches, validation
    operators, renderers), the Prefect artifact backend
    ([create_markdown_artifact]) and the Prefect run-time context
    ([prefect.context]).  None of them is part of the task, so they are
    taken as an interface ([Externals]): every foreign call is a function of
    a hidden world state that either returns a value or raises.  The body of
    [run] is translated statement by statement into a state/exception monad
    that also records every foreign call, with its arguments and its
    outcome, in a chronological log. *)

From Stdlib Require Import String.
From stdpp Require Import gmap strings list sorting.

(** ** Python truthiness *)

(** [bool(x)] for the kinds of value the task tests. *)
Class Truthy (A : Type) := truthy : A → bool.

(** A [str] is falsy exactly when it is empty. *)
#[global] Instance string_truthy : Truthy string :=
  λ s, match s with EmptyString => false | String _ _ => true end.

(** A [list] is falsy exactly when it is empty. *)
#[global] Instance list_truthy {A} : Truthy (list A) :=
  λ l, match l with [] => false | _ :: _ => true end.

(** A [dict] is falsy exactly when it is empty. *)
#[global] Instance dict_truthy {V} : Truthy (gmap string V) :=
  λ d, bool_decide (d ≠ ∅).

(** An optional argument is [None] (falsy) or a value with its own
    truthiness. *)
#[global] Instance option_truthy {A} `{Truthy A} : Truthy (option A) :=
  λ o, match o with None => false | Some x => truthy x end.

(** [x or y], for operands of one type. *)
Definition py_or {A} `{Truthy A} (x y : A) : A := if truthy x then x else y.

(** [bool(x and y)]: [x and y] is [x] when [x] is falsy and [y] otherwise. *)
Definition py_and_bool {A B} `{Truthy A} `{Truthy B} (x : A) (y : B) : bool :=
  if truthy x then truthy y else truthy x.

(** [sum(bool(x) for x in l)]: [sum] starts at 0 and adds from the left,
    [True] counting 1 and [False] 0. *)
Definition py_sum (l : list bool) : nat :=
  fold_left (λ acc b, acc + Nat.b2n b) l 0.

(** [v is False], for [v] an attribute that is a [bool] ([Some b]) or
    anything else ([None]). *)
Definition is_False (v : option bool) : bool :=
  match v with Some false => true | _ => false end.

(** ** Outcomes of calls *)

Inductive outcome (X A : Type) : Type :=
| Ret (a : A)
| Raise (e : X).
Arguments Ret {X A} & a.
Arguments Raise {X A} & e.

(** ** The foreign interface *)

(** A legacy checkpoint as [run] reads it: [ge_checkpoint["batches"]], each
    with ["batch_kwargs"] and ["expectation_suite_names"], and
    [ge_checkpoint["validation_operator_name"]]. *)
Record CheckpointBatch (Dict : Type) : Type := {
  cb_batch_kwargs : Dict;
  cb_expectation_suite_names : list string
}.
Arguments cb_batch_kwargs {Dict} _.
Arguments cb_expectation_suite_names {Dict} _.

Record Checkpoint (Dict : Type) : Type := {
  cp_batches : list (CheckpointBatch Dict);
  cp_validation_operator_name : string
}.
Arguments cp_batches {Dict} _.
Arguments cp_validation_operator_name {Dict} _.

(** The second argument of [context.get_batch]: [run] passes the suite name
    it was given in one branch and a loaded suite object in the other. *)
Inductive SuiteArg (Suite : Type) : Type :=
| SuiteName (name : option string)
| SuiteObj (suite : Suite).
Arguments SuiteName {Suite} name.
Arguments SuiteObj {Suite} suite.

Class Externals : Type := {
  (** values stored in the dictionaries handed through *)
  PyObj : Type;
  DataContext : Type;
  Suite : Type;
  Asset : Type;
  Results : Type;
  Document : Type;
  ArtifactId : Type;
  (** exceptions raised by foreign code *)
  ForeignExn : Type;
  (** hidden state of the engine, its stores and the backend *)
  World : Type;

  (** [results.success] *)
  success : Results → option bool;
  (** [prefect.context], a mapping read with [.get] *)
  prefect_context : gmap string string;

  (** [ge.DataContext(context_root_dir=.., runtime_environment=..)] *)
  new_DataContext :
    option string → option (gmap string PyObj) →
    World → outcome ForeignExn DataContext * World;
  (** [context.get_checkpoint(name)] *)
  get_checkpoint :
    DataContext → option string →
    World → outcome ForeignExn (Checkpoint (gmap string PyObj)) * World;
  (** [context.get_expectation_suite(name)] *)
  get_expectation_suite :
    DataContext → string → World → outcome ForeignExn Suite * World;
  (** [context.get_batch(batch_kwargs, suite)] *)
  get_batch :
    DataContext → option (gmap string PyObj) → SuiteArg Suite →
    World → outcome ForeignExn Asset * World;
  (** [context.run_validation_operator(name, assets_to_validate=..,
      run_id=.., evaluation_parameters=..)] *)
  run_validation_operator :
    DataContext → string → option (list Asset) →
    gmap string (option string) → option (gmap string PyObj) →
    World → outcome ForeignExn Results * World;
  (** [ge.render.renderer.ValidationResultsPageRenderer(run_info_at_end=..)
        .render_validation_operator_result(validation_operator_result=..)] *)
  render_validation_operator_result :
    bool → Results → World → outcome ForeignExn Document * World;
  (** [ge.render.view.DefaultMarkdownPageView().render(..)] *)
  markdown_page_view_render :
    Document → World → outcome ForeignExn (list string) * World;
  (** [prefect.backend.artifacts.create_markdown_artifact(markdown)] *)
  create_markdown_artifact :
    string → World → outcome ForeignExn ArtifactId * World
}.

Section Model.
Context {E : Externals}.

Local Abbreviation Dict := (gmap string PyObj).

(** ** Exceptions seen by the caller of [run] *)

Inductive Exn : Type :=
| ValueError (msg : string)      (* raised by [run] itself *)
| FAIL (result : Results)        (* [signals.FAIL(result=..)] *)
| Foreign (e : ForeignExn).      (* raised inside a foreign call *)

(** ** The log of foreign calls *)

Inductive Event : Type :=
| EvDataContext (context_root_dir : option string)
    (runtime_environment : option Dict) (r : outcome ForeignExn DataContext)
| EvGetCheckpoint (ctx : DataContext) (name : option string)
    (r : outcome ForeignExn (Checkpoint Dict))
| EvGetExpectationSuite (ctx : DataContext) (name : string)
    (r : outcome ForeignExn Suite)
| EvGetBatch (ctx : DataContext) (batch_kwargs : option Dict)
    (suite : SuiteArg Suite) (r : outcome ForeignExn Asset)
| EvRunValidationOperator (ctx : DataContext) (operator : string)
    (assets : option (list Asset)) (run_id : gmap string (option string))
    (evaluation_parameters : option Dict) (r : outcome ForeignExn Results)
| EvRenderResult (run_info_at_end : bool) (results : Results)
    (r : outcome ForeignExn Document)
| EvRenderMarkdown (doc : Document) (r : outcome ForeignExn (list string))
| EvCreateMarkdownArtifact (markdown : string)
    (r : outcome ForeignExn ArtifactId).

(** The exception a logged call ended with, if it raised. *)
Definition raised_of {A} (r : outcome ForeignExn A) : option ForeignExn :=
  match r with Ret _ => None | Raise e => Some e end.

Definition ev_raised (ev : Event) : option ForeignExn :=
  match ev with
  | EvDataContext _ _ r => raised_of r
  | EvGetCheckpoint _ _ r => raised_of r
  | EvGetExpectationSuite _ _ r => raised_of r
  | EvGetBatch _ _ _ r => raised_of r
  | EvRunValidationOperator _ _ _ _ _ r => raised_of r
  | EvRenderResult _ _ r => raised_of r
  | EvRenderMarkdown _ r => raised_of r
  | EvCreateMarkdownArtifact _ r => raised_of r
  end.

Definition is_publish (ev : Event) : bool :=
  match ev with EvCreateMarkdownArtifact _ _ => true | _ => false end.

Definition is_operator_call (ev : Event) : bool :=
  match ev with EvRunValidationOperator _ _ _ _ _ _ => true | _ => false end.

(** ** The monad: world state, exceptions, log *)

Record Res (A : Type) : Type := mkRes {
  out : outcome Exn A;
  st : World;
  log : list Event
}.
Arguments mkRes {A} out st log.
Arguments out {A} _.
Arguments st {A} _.
Arguments log {A} _.

Definition M (A : Type) : Type := World → Res A.

Definition ret {A} (a : A) : M A := λ w, mkRes (Ret a) w [].

Definition raise {A} (e : Exn) : M A := λ w, mkRes (Raise e) w [].

Definition bind {A B} (m : M A) (k : A → M B) : M B :=
  λ w,
    let r := m w in
    match out r with
    | Ret a => let r' := k a (st r) in mkRes (out r') (st r') (log r ++ log r')
    | Raise e => mkRes (Raise e) (st r) (log r)
    end.

(** What a foreign outcome becomes for the caller of [run]. *)
Definition lift_outcome {A} (r : outcome ForeignExn A) : outcome Exn A :=
  match r with Ret x => Ret x | Raise e => Raise (Foreign e) end.

(** A foreign call: run it on the world, log it with its outcome, and hand
    its outcome to the caller. *)
Definition call {A} (ev : outcome ForeignExn A → Event)
    (f : World → outcome ForeignExn A * World) : M A :=
  λ w, let '(r, w') := f w in mkRes (lift_outcome r) w' [ev r].

End Model.

(** The expected type fixes the interface before the arguments are read. *)
Arguments Foreign {E} & e.
Arguments FAIL {E} & result.
Arguments EvDataContext {E} & context_root_dir runtime_environment r.
Arguments EvGetCheckpoint {E} & ctx name r.
Arguments EvGetExpectationSuite {E} & ctx name r.
Arguments EvGetBatch {E} & ctx batch_kwargs suite r.
Arguments EvRunValidationOperator {E} & ctx operator assets run_id
  evaluation_parameters r.
Arguments EvRenderResult {E} & run_info_at_end results r.
Arguments EvRenderMarkdown {E} & doc r.
Arguments EvCreateMarkdownArtifact {E} & markdown r.
Arguments mkRes {E A} & out st log.
Arguments out {E A} _.
Arguments st {E A} _.
Arguments log {E A} _.

Notation "x <~ m ; k" := (bind m (λ x, k))
  (at level 20, m at level 100, k at level 200, only parsing).
Notation "' p <~ m ; k" := (bind m (λ x, match x with p => k end))
  (at level 20, p pattern, m at level 100, k at level 200, only parsing).

Section Task.
Context {E : Externals}.

Local Abbreviation Dict := (gmap string PyObj).

(** ** The arguments of [run]

    The values [run]'s body sees, that is after [defaults_from_attrs] has
    replaced every argument left at [None] by the attribute of the same name
    set in [__init__].  An optional argument is [None] or a value. *)
Record Args : Type := {
  checkpoint_name : option string;
  context : option DataContext;
  assets_to_validate : option (list Asset);
  batch_kwargs : option Dict;
  expectation_suite_name : option string;
  context_root_dir : option string;
  runtime_environment : option Dict;
  run_name : option string;
  run_info_at_end : bool;
  disable_markdown_artifact : bool;
  validation_operator : string;
  evaluation_parameters : option Dict
}.

Definition exclusivity_message : string :=
  "Exactly one of expectation_suite_name + batch_kwargs, assets_to_validate, or checkpoint_name is required to run validation.".

(** [for x in l: body], where [body] may rebind the local variables [s]. *)
Fixpoint for_each {A S} (l : list A) (body : A → S → M S) (s : S) : M S :=
  match l with
  | [] => ret s
  | x :: l' => s' <~ body x s ; for_each l' body s'
  end.

(** Lines 211-218: [runtime_environment or dict()], then the context is
    built unless one was passed (a DataContext object is truthy). *)
Definition load_context (a : Args) : M DataContext :=
  let runtime_environment := py_or (runtime_environment a) (Some ∅) in
  match context a with
  | None =>
      call (EvDataContext (context_root_dir a) runtime_environment)
        (new_DataContext (context_root_dir a) runtime_environment)
  | Some context => ret context
  end.

(** Lines 222-229: how many of the three input modes are supplied. *)
Definition supplied_modes (a : Args) : nat :=
  py_sum [ py_and_bool (expectation_suite_name a) (batch_kwargs a);
           truthy (assets_to_validate a);
           truthy (checkpoint_name a) ].

(** Lines 246-251: the loop over [ge_checkpoint["batches"]], appending to
    the local list [assets_to_validate].  The inner [for] evaluates
    [batch["expectation_suite_names"]] once, before its body rebinds
    [batch]; [batch_kwargs] is rebound too but not read after the loop. *)
Definition load_checkpoint_batches (context : DataContext)
    (ge_checkpoint : Checkpoint Dict) (assets_to_validate : list Asset)
    : M (list Asset) :=
  for_each (cp_batches ge_checkpoint) (λ batch assets_to_validate,
    let batch_kwargs := cb_batch_kwargs batch in
    for_each (cb_expectation_suite_names batch) (λ suite_name assets_to_validate,
      suite <~ call (EvGetExpectationSuite context suite_name)
                 (get_expectation_suite context suite_name) ;
      batch <~ call (EvGetBatch context (Some batch_kwargs) (SuiteObj suite))
                 (get_batch context (Some batch_kwargs) (SuiteObj suite)) ;
      ret (assets_to_validate ++ [batch]))
    assets_to_validate)
  assets_to_validate.

(** Lines 241-256: the assets and the operator name handed to the
    validation operator. *)
Definition load_assets (a : Args) (context : DataContext)
    : M (option (list Asset) * string) :=
  if negb (truthy (assets_to_validate a)) then
    let assets_to_validate := [] in
    if truthy (checkpoint_name a) then
      ge_checkpoint <~ call (EvGetCheckpoint context (checkpoint_name a))
                         (get_checkpoint context (checkpoint_name a)) ;
      assets_to_validate <~
        load_checkpoint_batches context ge_checkpoint assets_to_validate ;
      ret (Some assets_to_validate, cp_validation_operator_name ge_checkpoint)
    else
      batch <~ call (EvGetBatch context (batch_kwargs a)
                       (SuiteName (expectation_suite_name a)))
                 (get_batch context (batch_kwargs a)
                    (SuiteName (expectation_suite_name a))) ;
      ret (Some (assets_to_validate ++ [batch]), validation_operator a)
  else ret (assets_to_validate a, validation_operator a).

(** Line 262: [{"run_name": run_name or prefect.context.get("task_slug")}]. *)
Definition run_id (a : Args) : gmap string (option string) :=
  {[ "run_name" := py_or (run_name a) (prefect_context !! "task_slug") ]}.

(** Lines 266-285: the markdown artifact. *)
Definition generate_artifact_markdown (run_info_at_end : bool)
    (results : Results) : M unit :=
  let run_info_at_end := true in
  rendered_document_content_list <~
    call (EvRenderResult run_info_at_end results)
      (render_validation_operator_result run_info_at_end results) ;
  parts <~ call (EvRenderMarkdown rendered_document_content_list)
             (markdown_page_view_render rendered_document_content_list) ;
  let markdown_artifact := String.concat " " parts in
  _ <~ call (EvCreateMarkdownArtifact markdown_artifact)
         (create_markdown_artifact markdown_artifact) ;
  ret tt.

(** Lines 287-290. *)
Definition signal (results : Results) : M Results :=
  if is_False (success results) then raise (FAIL results) else ret results.

(** Lines 258-290: the validation operator, the artifact, the verdict. *)
Definition validate (a : Args) (context : DataContext)
    (assets_to_validate : option (list Asset)) (validation_operator : string)
    : M Results :=
  results <~ call (EvRunValidationOperator context validation_operator
                     assets_to_validate (run_id a) (evaluation_parameters a))
               (run_validation_operator context validation_operator
                  assets_to_validate (run_id a) (evaluation_parameters a)) ;
  _ <~ (if negb (disable_markdown_artifact a)
        then generate_artifact_markdown (run_info_at_end a) results
        else ret tt) ;
  signal results.

(** Lines 211-290, the body of [run]. *)
Definition run (a : Args) : M Results :=
  context <~ load_context a ;
  (* Check that the parameters are mutually exclusive *)
  if negb (supplied_modes a =? 1)
  then raise (ValueError exclusivity_message)
  else
    '(assets_to_validate, validation_operator) <~ load_assets a context ;
    validate a context assets_to_validate validation_operator.

(** The same arguments with another [run_info_at_end]. *)
Definition with_run_info_at_end (b : bool) (a : Args) : Args := {|
  checkpoint_name := checkpoint_name a;
  context := context a;
  assets_to_validate := assets_to_validate a;
  batch_kwargs := batch_kwargs a;
  expectation_suite_name := expectation_suite_name a;
  context_root_dir := context_root_dir a;
  runtime_environment := runtime_environment a;
  run_name := run_name a;
  run_info_at_end := b;
  disable_markdown_artifact := disable_markdown_artifact a;
  validation_operator := validation_operator a;
  evaluation_parameters := evaluation_parameters a
|}.

(** ** What a run can be observed to do

    The log and outcome of each block, independently of the world the run
    starts in; [run_trace] below shows that every run has one of these
    shapes. *)

(** The (batch_kwargs, suite name) pairings a checkpoint declares, batch by
    batch and, within a batch, in the order of its suite names. *)
Definition pairings (cp : Checkpoint Dict) : list (Dict * string) :=
  flat_map (λ b, map (pair (cb_batch_kwargs b)) (cb_expectation_suite_names b))
    (cp_batches cp).

(** The two calls that load the batch of one pairing, both returning. *)
Definition load_events (ctx : DataContext) (p : Dict * string)
    (sb : Suite * Asset) : list Event :=
  [ EvGetExpectationSuite ctx p.2 (Ret sb.1);
    EvGetBatch ctx (Some p.1) (SuiteObj sb.1) (Ret sb.2) ].

(** The block of the run a foreign call belongs to. *)
Inductive Phase : Type := PContext | PAssets | POperator | PArtifact.

Definition phase (ev : Event) : Phase :=
  match ev with
  | EvDataContext _ _ _ => PContext
  | EvGetCheckpoint _ _ _ | EvGetExpectationSuite _ _ _ | EvGetBatch _ _ _ _ =>
      PAssets
  | EvRunValidationOperator _ _ _ _ _ _ => POperator
  | EvRenderResult _ _ _ | EvRenderMarkdown _ _ | EvCreateMarkdownArtifact _ _ =>
      PArtifact
  end.

Definition map_outcome {X A B} (f : A → B) (r : outcome X A) : outcome X B :=
  match r with Ret x => Ret (f x) | Raise e => Raise e end.

(** The outcome of lines 287-290. *)
Definition verdict_of (results : Results) : outcome Exn Results :=
  if is_False (success results) then Raise (FAIL results) else Ret results.

Inductive ContextTrace (a : Args)
  : list Event → outcome ForeignExn DataContext → Prop :=
| CT_given ctx :
    context a = Some ctx → ContextTrace a [] (Ret ctx)
| CT_built r :
    context a = None →
    ContextTrace a
      [EvDataContext (context_root_dir a)
         (py_or (runtime_environment a) (Some ∅)) r] r.

Inductive LoadTrace (ctx : DataContext)
  : list (Dict * string) → list Event → outcome ForeignExn (list Asset) → Prop :=
| LT_done :
    LoadTrace ctx [] [] (Ret [])
| LT_suite_raises p ps e :
    LoadTrace ctx (p :: ps) [EvGetExpectationSuite ctx p.2 (Raise e)] (Raise e)
| LT_batch_raises p ps s e :
    LoadTrace ctx (p :: ps)
      [ EvGetExpectationSuite ctx p.2 (Ret s);
        EvGetBatch ctx (Some p.1) (SuiteObj s) (Raise e) ] (Raise e)
| LT_loaded p ps s b evs r :
    LoadTrace ctx ps evs r →
    LoadTrace ctx (p :: ps) (load_events ctx p (s, b) ++ evs)
      (map_outcome (cons b) r).

Inductive AssetsTrace (a : Args) (ctx : DataContext)
  : list Event → outcome ForeignExn (option (list Asset) * string) → Prop :=
| AS_given :
    truthy (assets_to_validate a) = true →
    AssetsTrace a ctx [] (Ret (assets_to_validate a, validation_operator a))
| AS_no_checkpoint e :
    truthy (assets_to_validate a) = false →
    truthy (checkpoint_name a) = true →
    AssetsTrace a ctx [EvGetCheckpoint ctx (checkpoint_name a) (Raise e)]
      (Raise e)
| AS_checkpoint cp evs r :
    truthy (assets_to_validate a) = false →
    truthy (checkpoint_name a) = true →
    LoadTrace ctx (pairings cp) evs r →
    AssetsTrace a ctx
      (EvGetCheckpoint ctx (checkpoint_name a) (Ret cp) :: evs)
      (map_outcome (λ bs, (Some bs, cp_validation_operator_name cp)) r)
| AS_batch r :
    truthy (assets_to_validate a) = false →
    truthy (checkpoint_name a) = false →
    AssetsTrace a ctx
      [EvGetBatch ctx (batch_kwargs a) (SuiteName (expectation_suite_name a)) r]
      (map_outcome (λ b, (Some [b], validation_operator a)) r).

Inductive ArtifactTrace (results : Results)
  : list Event → option ForeignExn → Prop :=
| AT_render_raises e :
    ArtifactTrace results [EvRenderResult true results (Raise e)] (Some e)
| AT_view_raises doc e :
    ArtifactTrace results
      [ EvRenderResult true results (Ret doc);
        EvRenderMarkdown doc (Raise e) ] (Some e)
| AT_publish_raises doc parts e :
    ArtifactTrace results
      [ EvRenderResult true results (Ret doc);
        EvRenderMarkdown doc (Ret parts);
        EvCreateMarkdownArtifact (String.concat " " parts) (Raise e) ] (Some e)
| AT_published doc parts aid :
    ArtifactTrace results
      [ EvRenderResult true results (Ret doc);
        EvRenderMarkdown doc (Ret parts);
        EvCreateMarkdownArtifact (String.concat " " parts) (Ret aid) ] None.

Inductive ValidateTrace (a : Args) (ctx : DataContext)
    (assets : option (list Asset)) (op : string)
  : list Event → outcome Exn Results → Prop :=
| VT_operator_raises e :
    ValidateTrace a ctx assets op
      [EvRunValidationOperator ctx op assets (run_id a)
         (evaluation_parameters a) (Raise e)]
      (Raise (Foreign e))
| VT_no_artifact results :
    disable_markdown_artifact a = true →
    ValidateTrace a ctx assets op
      [EvRunValidationOperator ctx op assets (run_id a)
         (evaluation_parameters a) (Ret results)]
      (verdict_of results)
| VT_artifact results evs x :
    disable_markdown_artifact a = false →
    ArtifactTrace results evs x →
    ValidateTrace a ctx assets op
      (EvRunValidationOperator ctx op assets (run_id a)
         (evaluation_parameters a) (Ret results) :: evs)
      (match x with
       | Some e => Raise (Foreign e)
       | None => verdict_of results
       end).

Inductive RunTrace (a : Args) : list Event → outcome Exn Results → Prop :=
| RT_context_raises l e :
    ContextTrace a l (Raise e) →
    RunTrace a l (Raise (Foreign e))
| RT_rejected l ctx :
    ContextTrace a l (Ret ctx) →
    supplied_modes a ≠ 1 →
    RunTrace a l (Raise (ValueError exclusivity_message))
| RT_assets_raise l ctx l' e :
    ContextTrace a l (Ret ctx) →
    supplied_modes a = 1 →
    AssetsTrace a ctx l' (Raise e) →
    RunTrace a (l ++ l') (Raise (Foreign e))
| RT_validated l ctx l' assets op l'' o :
    ContextTrace a l (Ret ctx) →
    supplied_modes a = 1 →
    AssetsTrace a ctx l' (Ret (assets, op)) →
    ValidateTrace a ctx assets op l'' o →
    RunTrace a (l ++ l' ++ l'') o.

(** No call of the log raised. *)
Definition Quiet (l : list Event) : Prop :=
  Forall (λ ev, ev_raised ev = None) l.

(** A log agrees with the exception [x] its block ended with: nothing in it
    raised, or its last call raised [x] and nothing before did. *)
Definition Ends (l : list Event) (x : option ForeignExn) : Prop :=
  match x with
  | None => Quiet l
  | Some e => ∃ l' ev, l = l' ++ [ev] ∧ Quiet l' ∧ ev_raised ev = Some e
  end.

(** The foreign exception an outcome of [run] carries. *)
Definition foreign_of {A} (o : outcome Exn A) : option ForeignExn :=
  match o with Raise (Foreign e) => Some e | _ => None end.

(** ** More to observe in a log *)

(** The context a logged call is a method call of, if it is one. *)
Definition event_context (ev : Event) : option DataContext :=
  match ev with
  | EvGetCheckpoint ctx _ _ => Some ctx
  | EvGetExpectationSuite ctx _ _ => Some ctx
  | EvGetBatch ctx _ _ _ => Some ctx
  | EvRunValidationOperator ctx _ _ _ _ _ => Some ctx
  | EvDataContext _ _ _ | EvRenderResult _ _ _ | EvRenderMarkdown _ _
  | EvCreateMarkdownArtifact _ _ => None
  end.

Definition is_get_checkpoint (ev : Event) : bool :=
  match ev with EvGetCheckpoint _ _ _ => true | _ => false end.

(** The place of a block in the body of [run]. *)
Definition phase_rank (p : Phase) : nat :=
  match p with PContext => 0 | PAssets => 1 | POperator => 2 | PArtifact => 3 end.

(** [ev1] belongs to the same block as [ev2] or to an earlier one. *)
Definition not_after (ev1 ev2 : Event) : Prop :=
  phase_rank (phase ev1) ≤ phase_rank (phase ev2).

End Task.

(** ** A small concrete world

    A stand-in for the foreign systems, used to run the model on explicit
    inputs: the world state counts the foreign calls made so far, contexts
    and artifacts are numbered by it, a batch is the pair of arguments it
    was loaded from, and the knobs of [cfg] decide which calls raise. *)
Module Toy.

Record cfg : Type := {
  context_fails : bool;
  checkpoints : gmap string (Checkpoint (gmap string string));
  suites : list string;
  verdict : option bool;
  renderer_fails : bool;
  publish_fails : bool;
  slug : option string
}.

Record results : Type := {
  res_success : option bool;
  res_assets : option (list (option (gmap string string) * SuiteArg string))
}.

Definition externals (c : cfg) : Externals := {|
  PyObj := string;
  DataContext := nat;
  Suite := string;
  Asset := option (gmap string string) * SuiteArg string;
  Results := results;
  Document := bool * results;
  ArtifactId := nat;
  ForeignExn := string;
  World := nat;
  success := res_success;
  prefect_context :=
    match slug c with Some s => {[ "task_slug" := s ]} | None => ∅ end;
  new_DataContext := λ _ _ w,
    (if context_fails c then Raise "ConfigNotFoundError" else Ret w, S w);
  get_checkpoint := λ _ name w,
    (match name ≫= (λ n, checkpoints c !! n) with
     | Some cp => Ret cp
     | None => Raise "CheckpointNotFoundError"
     end, S w);
  get_expectation_suite := λ _ name w,
    (if bool_decide (name ∈ suites c) then Ret name
     else Raise "DataContextError", S w);
  get_batch := λ _ bk s w, (Ret (bk, s), S w);
  run_validation_operator := λ _ _ assets _ _ w,
    (Ret {| res_success := verdict c; res_assets := assets |}, S w);
  render_validation_operator_result := λ flag r w,
    (if renderer_fails c then Raise "RenderingError" else Ret (flag, r), S w);
  markdown_page_view_render := λ doc w,
    (Ret ["# Validation Results";
          if fst doc then "Run info" else "(no run info)"], S w);
  create_markdown_artifact := λ _ w,
    (if publish_fails c then Raise "ClientError" else Ret w, S w)
|}.

(** The one stored checkpoint: two batches, three pairings. *)
Definition nightly : Checkpoint (gmap string string) := {|
  cp_batches :=
    [ {| cb_batch_kwargs := {[ "path" := "a.csv" ]};
         cb_expectation_suite_names := ["a.warning"; "a.failure"] |};
      {| cb_batch_kwargs := {[ "path" := "b.csv" ]};
         cb_expectation_suite_names := ["b.warning"] |} ];
  cp_validation_operator_name := "nightly_operator"
|}.

(** A world with the checkpoint and its three suites stored, in which the
    validation ends with [verdict] and the chosen calls raise. *)
Definition world (verdict : option bool)
    (context_fails renderer_fails publish_fails : bool) : cfg := {|
  context_fails := context_fails;
  checkpoints := {[ "nightly" := nightly ]};
  suites := ["a.warning"; "a.failure"; "b.warning"];
  verdict := verdict;
  renderer_fails := renderer_fails;
  publish_fails := publish_fails;
  slug := Some "validate-1"
|}.

(** Everything succeeds, the validation passes. *)
Definition healthy : cfg := world (Some true) false false false.

(** The arguments of a call: those listed, the others at their defaults. *)
Definition args (c : cfg)
    (checkpoint_name : option string) (context : option nat)
    (assets_to_validate :
       option (list (option (gmap string string) * SuiteArg string)))
    (batch_kwargs : option (gmap string string))
    (expectation_suite_name run_name : option string)
    (run_info_at_end disable_markdown_artifact : bool)
    : @Args (externals c) := {|
  checkpoint_name := checkpoint_name;
  context := context : option (@DataContext (externals c));
  assets_to_validate := assets_to_validate;
  batch_kwargs := batch_kwargs;
  expectation_suite_name := expectation_suite_name;
  context_root_dir := None;
  runtime_environment := None;
  run_name := run_name;
  run_info_at_end := run_info_at_end;
  disable_markdown_artifact := disable_markdown_artifact;
  validation_operator := "action_list_operator";
  evaluation_parameters := None
|}.

(** The validation fails. *)
Definition failing : cfg := world (Some false) false false false.

(** No project directory: [ge.DataContext(..)] raises. *)
Definition no_project : cfg := world (Some true) true false false.

(** The renderer raises. *)
Definition unrenderable : cfg := world (Some true) false true false.

(** The artifact backend raises; the validation ends with [verdict]. *)
Definition unpublishable (verdict : option bool) : cfg :=
  world verdict false false true.

(** A batch built by the caller. *)
Definition a_batch : option (gmap string string) * SuiteArg string :=
  (Some {[ "path" := "a.csv" ]}, SuiteName (Some "a.warning")).

(** The three batches the checkpoint expands to. *)
Definition nightly_batches
    : list (option (gmap string string) * SuiteArg string) :=
  [ (Some {[ "path" := "a.csv" ]}, SuiteObj "a.warning");
    (Some {[ "path" := "a.csv" ]}, SuiteObj "a.failure");
    (Some {[ "path" := "b.csv" ]}, SuiteObj "b.warning") ].

(** [run()] with every argument at its default. *)
Definition no_args (c : cfg) : @Args (externals c) :=
  args c None None None None None None true false.

(** [run(checkpoint_name="nightly", context=<context 7>)]. *)
Definition by_checkpoint (c : cfg) : @Args (externals c) :=
  args c (Some "nightly") (Some 7) None None None None true false.

(** [run(assets_to_validate=[<batch>], context=<context 7>)]. *)
Definition by_assets (c : cfg) : @Args (externals c) :=
  args c None (Some 7) (Some [a_batch]) None None None true false.

(** The same with [run_info_at_end=False]. *)
Definition by_assets_no_run_info (c : cfg) : @Args (externals c) :=
  args c None (Some 7) (Some [a_batch]) None None None false false.

(** The same with [disable_markdown_artifact=True]. *)
Definition by_assets_no_artifact (c : cfg) : @Args (externals c) :=
  args c None (Some 7) (Some [a_batch]) None None None true true.

(** [run(checkpoint_name="nightly", expectation_suite_name="a.warning",
    context=<context 7>)]: a suite name without batch_kwargs. *)
Definition by_checkpoint_and_suite_name (c : cfg) : @Args (externals c) :=
  args c (Some "nightly") (Some 7) None None (Some "a.warning") None true false.

(** [run(expectation_suite_name="a.warning")]: a suite name and nothing
    else, not even a context. *)
Definition by_suite_name_alone (c : cfg) : @Args (externals c) :=
  args c None None None None (Some "a.warning") None true false.

(** What the operator returns for the caller's batch. *)
Definition result_of (c : cfg) : results :=
  {| res_success := verdict c; res_assets := Some [a_batch] |}.

(** The validation ends with a result whose [success] is [None]. *)
Definition undecided : cfg := world None false false false.

(** A checkpoint whose one batch lists no suite. *)
Definition hollow_checkpoint : Checkpoint (gmap string string) := {|
  cp_batches :=
    [ {| cb_batch_kwargs := {[ "path" := "a.csv" ]};
         cb_expectation_suite_names := [] |} ];
  cp_validation_operator_name := "nightly_operator"
|}.

(** A store that holds only that checkpoint. *)
Definition hollow : cfg := {|
  context_fails := false;
  checkpoints := {[ "hollow" := hollow_checkpoint ]};
  suites := [];
  verdict := Some true;
  renderer_fails := false;
  publish_fails := false;
  slug := Some "validate-1"
|}.

(** [run(checkpoint_name="hollow", context=<context 7>)]. *)
Definition by_hollow_checkpoint (c : cfg) : @Args (externals c) :=
  args c (Some "hollow") (Some 7) None None None None true false.

(** [run(batch_kwargs={"path": "a.csv"}, expectation_suite_name="a.warning",
    context=<context 7>)]. *)
Definition by_suite_and_batch (c : cfg) : @Args (externals c) :=
  args c None (Some 7) None (Some {[ "path" := "a.csv" ]}) (Some "a.warning")
    None true false.

(** [run(assets_to_validate=[<batch>])], the context left to be built. *)
Definition by_assets_without_context (c : cfg) : @Args (externals c) :=
  args c None None (Some [a_batch]) None None None true false.

End Toy.

(** * Properties *)

Section Properties.
Context {E : Externals}.

Local Abbreviation Dict := (gmap string PyObj).

(** ** The monad *)

Lemma call_eq {A} (ev : outcome ForeignExn A → Event) f w :
  call ev f w = mkRes (lift_outcome (f w).1) (f w).2 [ev (f w).1].
Proof. unfold call. by destruct (f w). Qed.

Lemma bind_Ret {A B} (m : M A) (k : A → M B) w x :
  out (m w) = Ret x →
  bind m k w =
    mkRes (out (k x (st (m w)))) (st (k x (st (m w))))
      (log (m w) ++ log (k x (st (m w)))).
Proof. intros Hx. unfold bind. by rewrite Hx. Qed.

Lemma bind_Raise {A B} (m : M A) (k : A → M B) w e :
  out (m w) = Raise e → bind m k w = mkRes (Raise e) (st (m w)) (log (m w)).
Proof. intros Hx. unfold bind. by rewrite Hx. Qed.

Lemma bind_ret {A B} (x : A) (k : A → M B) w : bind (ret x) k w = k x w.
Proof. unfold bind, ret. simpl. by destruct (k x w). Qed.

Lemma bind_raise {A B} e (k : A → M B) w :
  bind (raise e) k w = mkRes (Raise e) w [].
Proof. done. Qed.

Lemma bind_ret_map {A B} (m : M A) (f : A → B) w :
  bind m (λ x, ret (f x)) w =
    mkRes (map_outcome f (out (m w))) (st (m w)) (log (m w)).
Proof. unfold bind, ret. destruct (out (m w)); simpl; by rewrite ?app_nil_r. Qed.

Lemma bind_assoc {A B C} (m : M A) (k1 : A → M B) (k2 : B → M C) w :
  bind (bind m k1) k2 w = bind m (λ x, bind (k1 x) k2) w.
Proof.
  unfold bind. destruct (out (m w)) as [x|e]; simpl; [|done].
  destruct (out (k1 x (st (m w)))); simpl; [|done].
  by rewrite app_assoc.
Qed.

Lemma bind_call {A B} (ev : outcome ForeignExn A → Event) f (k : A → M B) w :
  bind (call ev f) k w =
    match (f w).1 with
    | Ret x =>
        let r := k x (f w).2 in mkRes (out r) (st r) (ev (Ret x) :: log r)
    | Raise e => mkRes (Raise (Foreign e)) (f w).2 [ev (Raise e)]
    end.
Proof. unfold bind. rewrite call_eq. simpl. by destruct (f w).1. Qed.

Lemma map_outcome_id {X A} (f : A → A) (r : outcome X A) :
  (∀ x, f x = x) → map_outcome f r = r.
Proof. intros Hf. destruct r; simpl; by rewrite ?Hf. Qed.

Lemma map_outcome_compose {X A B C} (f : A → B) (g : B → C) (r : outcome X A) :
  map_outcome g (map_outcome f r) = map_outcome (λ x, g (f x)) r.
Proof. by destruct r. Qed.

(** ** Every block has one of its shapes *)

Lemma load_context_trace a w :
  ∃ r, ContextTrace a (log (load_context a w)) r
       ∧ out (load_context a w) = lift_outcome r.
Proof.
  unfold load_context. destruct (context a) as [ctx|] eqn:Hctx.
  - exists (Ret ctx). split; [by constructor | done].
  - rewrite call_eq. simpl. eexists. split; [by constructor | done].
Qed.

Lemma LoadTrace_app ctx ps ps' l1 l2 o1 o2 :
  LoadTrace ctx ps l1 o1 →
  LoadTrace ctx ps' l2 o2 →
  LoadTrace ctx (ps ++ ps')
    (match o1 with Ret _ => l1 ++ l2 | Raise _ => l1 end)
    (match o1 with Ret bs => map_outcome (app bs) o2 | Raise e => Raise e end).
Proof.
  intros H1 H2. induction H1 as [|p ps e|p ps s e|p ps s b evs r H1 IH]; simpl.
  - by rewrite map_outcome_id.
  - constructor.
  - constructor.
  - destruct r as [bs|e]; simpl in *.
    + rewrite <- (map_outcome_compose (app bs) (cons b)).
      by apply (LT_loaded ctx p (ps ++ ps') s b (evs ++ l2)).
    + by apply (LT_loaded ctx p (ps ++ ps') s b evs (Raise e)).
Qed.

Lemma suite_loop_trace ctx (bk : Dict) names (acc : list Asset) w :
  let r :=
    for_each names (λ suite_name assets_to_validate,
      suite <~ call (EvGetExpectationSuite ctx suite_name)
                 (get_expectation_suite ctx suite_name) ;
      batch <~ call (EvGetBatch ctx (Some bk) (SuiteObj suite))
                 (get_batch ctx (Some bk) (SuiteObj suite)) ;
      ret (assets_to_validate ++ [batch])) acc w in
  ∃ o, LoadTrace ctx (map (pair bk) names) (log r) o
       ∧ out r = lift_outcome (map_outcome (app acc) o).
Proof.
  revert acc w. induction names as [|n names IH]; intros acc w; simpl.
  - exists (Ret []). split; [apply LT_done | by simpl; rewrite app_nil_r].
  - rewrite bind_assoc, bind_call.
    destruct (get_expectation_suite ctx n w) as [[s|e] w1]; cbn [fst snd].
    2: { exists (Raise e). split; [apply (LT_suite_raises ctx (bk, n)) | done]. }
    rewrite bind_assoc, bind_call.
    destruct (get_batch ctx (Some bk) (SuiteObj s) w1) as [[b|e] w2];
      cbn [fst snd].
    2: { exists (Raise e). split; [apply (LT_batch_raises ctx (bk, n)) | done]. }
    rewrite bind_ret. cbn [out log].
    destruct (IH (acc ++ [b]) w2) as (o & Ho & Hout).
    exists (map_outcome (cons b) o). split.
    + by apply (LT_loaded ctx (bk, n) _ s b).
    + rewrite Hout, map_outcome_compose. destruct o; simpl; [|done].
      by rewrite <- app_assoc.
Qed.

Lemma load_checkpoint_batches_trace ctx (cp : Checkpoint Dict) acc w :
  let r := load_checkpoint_batches ctx cp acc w in
  ∃ o, LoadTrace ctx (pairings cp) (log r) o
       ∧ out r = lift_outcome (map_outcome (app acc) o).
Proof.
  unfold load_checkpoint_batches, pairings.
  revert acc w. induction (cp_batches cp) as [|b bs IH]; intros acc w; simpl.
  - exists (Ret []). split; [apply LT_done | by simpl; rewrite app_nil_r].
  - destruct (suite_loop_trace ctx (cb_batch_kwargs b)
                (cb_expectation_suite_names b) acc w) as (o1 & H1 & Hout1).
    cbv zeta in H1, Hout1.
    destruct o1 as [bs1|e]; simpl in Hout1.
    + rewrite (bind_Ret _ _ _ _ Hout1). cbn [out log].
      destruct (IH (acc ++ bs1) (st (for_each (cb_expectation_suite_names b)
        (λ suite_name assets_to_validate,
           suite <~ call (EvGetExpectationSuite ctx suite_name)
                      (get_expectation_suite ctx suite_name) ;
           batch <~ call (EvGetBatch ctx (Some (cb_batch_kwargs b))
                            (SuiteObj suite))
                      (get_batch ctx (Some (cb_batch_kwargs b))
                         (SuiteObj suite)) ;
           ret (assets_to_validate ++ [batch])) acc w)))
        as (o2 & H2 & Hout2).
      exists (map_outcome (app bs1) o2). split.
      * apply (LoadTrace_app _ _ _ _ _ _ _ H1 H2).
      * rewrite Hout2, map_outcome_compose. destruct o2; simpl; [|done].
        by rewrite <- app_assoc.
    + rewrite (bind_Raise _ _ _ _ Hout1). cbn [out log].
      destruct (IH acc w) as (o2 & H2 & _).
      exists (Raise e). split; [|done].
      apply (LoadTrace_app _ _ _ _ _ _ _ H1 H2).
Qed.

Lemma load_assets_trace a ctx w :
  ∃ o, AssetsTrace a ctx (log (load_assets a ctx w)) o
       ∧ out (load_assets a ctx w) = lift_outcome o.
Proof.
  unfold load_assets.
  destruct (truthy (assets_to_validate a)) eqn:Hassets; cbn [negb].
  { eexists. split; [by apply AS_given | done]. }
  destruct (truthy (checkpoint_name a)) eqn:Hname.
  - rewrite bind_call.
    destruct (get_checkpoint ctx (checkpoint_name a) w) as [[cp|e] w1];
      cbn [fst snd].
    2: { exists (Raise e). split; [by apply AS_no_checkpoint | done]. }
    destruct (load_checkpoint_batches_trace ctx cp [] w1) as (o & Ho & Hout).
    cbv zeta in Ho, Hout. rewrite map_outcome_id in Hout by done.
    rewrite bind_ret_map. cbn [out log]. rewrite Hout.
    eexists. split; [by apply (AS_checkpoint a ctx cp _ o)|].
    by destruct o.
  - rewrite bind_call.
    destruct (get_batch ctx (batch_kwargs a)
                (SuiteName (expectation_suite_name a)) w) as [[b|e] w1];
      cbn [fst snd].
    + eexists. split; [by apply (AS_batch a ctx (Ret b)) | done].
    + eexists. split; [by apply (AS_batch a ctx (Raise e)) | done].
Qed.

Lemma generate_artifact_markdown_trace flag results w :
  let r := generate_artifact_markdown flag results w in
  ∃ x, ArtifactTrace results (log r) x
       ∧ out r = match x with Some e => Raise (Foreign e) | None => Ret tt end.
Proof.
  unfold generate_artifact_markdown. cbv zeta. rewrite bind_call.
  destruct (render_validation_operator_result true results w)
    as [[doc|e] w1]; cbn [fst snd].
  2: { exists (Some e). split; [constructor | done]. }
  rewrite bind_call.
  destruct (markdown_page_view_render doc w1) as [[parts|e] w2];
    cbn [fst snd out log].
  2: { exists (Some e). split; [constructor | done]. }
  rewrite bind_call.
  destruct (create_markdown_artifact (String.concat " " parts) w2)
    as [[aid|e] w3]; cbn [fst snd out log].
  - exists None. split; [apply (AT_published _ doc parts aid) | done].
  - exists (Some e). split; [constructor | done].
Qed.

Lemma signal_eq results w :
  signal results w = mkRes (verdict_of results) w [].
Proof. unfold signal, verdict_of. by destruct (is_False (success results)). Qed.

Lemma validate_trace a ctx assets op w :
  ValidateTrace a ctx assets op (log (validate a ctx assets op w))
    (out (validate a ctx assets op w)).
Proof.
  unfold validate. rewrite bind_call.
  destruct (run_validation_operator ctx op assets (run_id a)
              (evaluation_parameters a) w) as [[results|e] w1]; cbn [fst snd].
  2: { constructor. }
  destruct (disable_markdown_artifact a) eqn:Hdis; cbn [negb].
  - rewrite bind_ret, signal_eq. cbn [out log]. by constructor.
  - destruct (generate_artifact_markdown_trace (run_info_at_end a) results w1)
      as (x & Hx & Hout).
    cbv zeta in Hx, Hout. destruct x as [e|].
    + rewrite (bind_Raise _ _ _ _ Hout). cbn [out log].
      by apply (VT_artifact a ctx assets op results _ (Some e)).
    + rewrite (bind_Ret _ _ _ _ Hout), signal_eq. cbn [out log].
      rewrite app_nil_r.
      by apply (VT_artifact a ctx assets op results _ None).
Qed.

(** Every run has one of the shapes of [RunTrace]. *)
Lemma run_trace a w : RunTrace a (log (run a w)) (out (run a w)).
Proof.
  unfold run.
  destruct (load_context_trace a w) as (rc & Hc & Hcout).
  destruct rc as [ctx|e]; simpl in Hcout.
  2: { rewrite (bind_Raise _ _ _ _ Hcout). by constructor. }
  rewrite (bind_Ret _ _ _ _ Hcout). cbn [out log].
  destruct (supplied_modes a =? 1) eqn:Hmodes; cbn [negb].
  2: { apply Nat.eqb_neq in Hmodes. unfold raise. cbn [out log].
       rewrite app_nil_r. by apply (RT_rejected a _ ctx). }
  apply Nat.eqb_eq in Hmodes.
  destruct (load_assets_trace a ctx (st (load_context a w)))
    as (ra & Ha & Haout).
  destruct ra as [[assets op]|e]; simpl in Haout.
  - rewrite (bind_Ret _ _ _ _ Haout). cbn [out log].
    eapply RT_validated; eauto using validate_trace.
  - rewrite (bind_Raise _ _ _ _ Haout). cbn [out log].
    eapply RT_assets_raise; eauto.
Qed.


(** ** Which calls a block makes *)

Lemma ContextTrace_phase a l r :
  ContextTrace a l r → Forall (λ ev, phase ev = PContext) l.
Proof. destruct 1; repeat constructor. Qed.

Lemma LoadTrace_phase ctx ps l r :
  LoadTrace ctx ps l r → Forall (λ ev, phase ev = PAssets) l.
Proof. induction 1; repeat constructor; done. Qed.

Lemma AssetsTrace_phase a ctx l r :
  AssetsTrace a ctx l r → Forall (λ ev, phase ev = PAssets) l.
Proof.
  destruct 1; repeat constructor. by eapply LoadTrace_phase.
Qed.

Lemma ArtifactTrace_phase results l x :
  ArtifactTrace results l x → Forall (λ ev, phase ev = PArtifact) l.
Proof. destruct 1; repeat constructor. Qed.

Lemma ValidateTrace_head a ctx assets op l o :
  ValidateTrace a ctx assets op l o →
  ∃ r tail,
    l = EvRunValidationOperator ctx op assets (run_id a)
          (evaluation_parameters a) r :: tail
    ∧ Forall (λ ev, phase ev = PArtifact) tail.
Proof.
  destruct 1; eexists _, _; (split; [done|]); try constructor.
  by eapply ArtifactTrace_phase.
Qed.

(** ** Where a call sits in a log *)

Lemma split_unique {A} (P : A → Prop) (l1 l2 l1' l2' : list A) x x' :
  l1' ++ x' :: l2' = l1 ++ x :: l2 →
  P x → Forall (λ y, ¬ P y) l1' → Forall (λ y, ¬ P y) l2' →
  l1 = l1' ∧ x = x' ∧ l2 = l2'.
Proof.
  revert l1. induction l1' as [|y' l1' IH]; intros l1 Heq Hx H1 H2.
  - destruct l1 as [|y l1]; simplify_eq/=; [done|].
    rewrite Forall_app, Forall_cons in H2. by destruct H2 as (_ & ? & _).
  - apply Forall_cons in H1 as [Hy' H1].
    destruct l1 as [|y l1]; simplify_eq/=; [done|].
    destruct (IH l1) as (-> & -> & ->); done.
Qed.

Lemma phase_not_operator (l : list Event) p :
  p ≠ POperator →
  Forall (λ ev, phase ev = p) l →
  Forall (λ ev, ¬ phase ev = POperator) l.
Proof. intros Hp Hl. eapply Forall_impl; [exact Hl|]. simpl. congruence. Qed.

(** A logged validation-operator call is the call of [validate], made once
    the context and the assets are there. *)
Lemma run_operator_inv a l o l1 l2 ctx op assets rid ep r :
  RunTrace a l o →
  l = l1 ++ EvRunValidationOperator ctx op assets rid ep r :: l2 →
  ∃ lc la,
    l1 = lc ++ la
    ∧ ContextTrace a lc (Ret ctx)
    ∧ supplied_modes a = 1
    ∧ AssetsTrace a ctx la (Ret (assets, op))
    ∧ ValidateTrace a ctx assets op
        (EvRunValidationOperator ctx op assets rid ep r :: l2) o.
Proof.
  intros Ht Hl.
  assert (Hno : ∀ l',
    Forall (λ ev, ¬ phase ev = POperator) l' →
    l' ≠ l1 ++ EvRunValidationOperator ctx op assets rid ep r :: l2).
  { intros l' Hall ->. rewrite Forall_app, Forall_cons in Hall.
    by destruct Hall as (_ & ? & _). }
  destruct Ht as [l e Hc|l ctx' Hc Hm|l ctx' l' e Hc Hm Ha
                 |l ctx' l' assets' op' l'' o Hc Hm Ha Hv].
  - apply ContextTrace_phase, (phase_not_operator _ PContext) in Hc; [|done].
    by apply Hno in Hc.
  - apply ContextTrace_phase, (phase_not_operator _ PContext) in Hc; [|done].
    by apply Hno in Hc.
  - apply ContextTrace_phase, (phase_not_operator _ PContext) in Hc; [|done].
    apply AssetsTrace_phase, (phase_not_operator _ PAssets) in Ha; [|done].
    destruct (Hno (l ++ l')); [by apply Forall_app|done].
  - pose proof (ContextTrace_phase _ _ _ Hc) as Hpc.
    pose proof (AssetsTrace_phase _ _ _ _ Ha) as Hpa.
    apply (phase_not_operator _ PContext) in Hpc; [|done].
    apply (phase_not_operator _ PAssets) in Hpa; [|done].
    destruct (ValidateTrace_head _ _ _ _ _ _ Hv) as (r' & tail & -> & Htail).
    apply (phase_not_operator _ PArtifact) in Htail; [|done].
    rewrite app_assoc in Hl.
    apply (split_unique (λ ev, phase ev = POperator)) in Hl
      as (-> & Hev & ->); [|done|by apply Forall_app|done].
    simplify_eq. eauto 10.
Qed.


(** ** Where a run stops *)

Lemma Ends_app l1 l2 x : Quiet l1 → Ends l2 x → Ends (l1 ++ l2) x.
Proof.
  intros H1 H2. destruct x as [e|]; simpl in *.
  - destruct H2 as (l' & ev & -> & Hq & Hev).
    exists (l1 ++ l'), ev. rewrite app_assoc. split_and!; [done| |done].
    by apply Forall_app.
  - by apply Forall_app.
Qed.

Lemma Ends_last l ev e : Quiet l → ev_raised ev = Some e → Ends (l ++ [ev]) (Some e).
Proof. intros. by exists l, ev. Qed.

Lemma ContextTrace_ends a l r : ContextTrace a l r → Ends l (raised_of r).
Proof.
  destruct 1 as [ctx|r]; [by constructor|].
  destruct r as [ctx|e]; simpl.
  - by repeat constructor.
  - by apply (Ends_last []); [constructor|].
Qed.

Lemma LoadTrace_ends ctx ps l r : LoadTrace ctx ps l r → Ends l (raised_of r).
Proof.
  induction 1 as [|p ps e|p ps s e|p ps s b evs r H IH].
  - constructor.
  - by apply (Ends_last []); [constructor|].
  - by apply (Ends_last [_]); [repeat constructor|].
  - apply Ends_app; [by repeat constructor|]. by destruct r.
Qed.

Lemma AssetsTrace_ends a ctx l r : AssetsTrace a ctx l r → Ends l (raised_of r).
Proof.
  destruct 1 as [|e| cp evs r ? ? Hload|r].
  - constructor.
  - by apply (Ends_last []); [constructor|].
  - apply LoadTrace_ends in Hload.
    apply (Ends_app [_]); [by repeat constructor|]. by destruct r.
  - destruct r as [b|e]; simpl.
    + by repeat constructor.
    + by apply (Ends_last []); [constructor|].
Qed.

Lemma ArtifactTrace_ends results l x : ArtifactTrace results l x → Ends l x.
Proof.
  destruct 1.
  - by apply (Ends_last []); [constructor|].
  - by apply (Ends_last [_]); [repeat constructor|].
  - by apply (Ends_last [_; _]); [repeat constructor|].
  - by repeat constructor.
Qed.

Lemma foreign_of_verdict results : foreign_of (verdict_of results) = None.
Proof. unfold verdict_of. by destruct (is_False (success results)). Qed.

Lemma ValidateTrace_ends a ctx assets op l o :
  ValidateTrace a ctx assets op l o → Ends l (foreign_of o).
Proof.
  destruct 1 as [e|results|results evs x ? Hart].
  - by apply (Ends_last []); [constructor|].
  - rewrite foreign_of_verdict. by repeat constructor.
  - apply ArtifactTrace_ends in Hart.
    apply (Ends_app [_]); [by repeat constructor|].
    destruct x; [done|]. by rewrite foreign_of_verdict.
Qed.

Lemma RunTrace_ends a l o : RunTrace a l o → Ends l (foreign_of o).
Proof.
  destruct 1 as [l e Hc|l ctx' Hc Hm|l ctx' l' e Hc Hm Ha
                |l ctx' l' assets' op' l'' o Hc Hm Ha Hv].
  - by apply ContextTrace_ends in Hc.
  - by apply ContextTrace_ends in Hc.
  - apply ContextTrace_ends in Hc. apply AssetsTrace_ends in Ha.
    by apply Ends_app.
  - apply ContextTrace_ends in Hc. apply AssetsTrace_ends in Ha.
    apply ValidateTrace_ends in Hv.
    apply Ends_app; [done|]. by apply Ends_app.
Qed.


Lemma Ends_Quiet l e : Ends l (Some e) → Quiet l → False.
Proof.
  intros (l' & ev & -> & _ & Hev) Hq.
  apply Forall_app in Hq as [_ Hq]. apply Forall_cons in Hq as [Hq _].
  congruence.
Qed.

(** Once the operator has returned and nothing after it raises, the run
    ends with the verdict on the operator's result. *)
Lemma run_verdict a w l1 l2 ctx op assets rid ep results :
  log (run a w) =
    l1 ++ EvRunValidationOperator ctx op assets rid ep (Ret results) :: l2 →
  Quiet l2 →
  out (run a w) = verdict_of results.
Proof.
  intros Hlog Hq.
  destruct (run_operator_inv _ _ _ _ _ _ _ _ _ _ _ (run_trace a w) Hlog)
    as (lc & la & _ & _ & _ & _ & Hv).
  inversion Hv as [e|results' Hdis|results' evs x Hdis Hart]; subst; [done|].
  destruct x as [e|]; [|done].
  apply ArtifactTrace_ends in Hart. by destruct (Ends_Quiet _ _ Hart).
Qed.

(** The count of line 222, spelled out. *)
Lemma supplied_modes_eq a :
  supplied_modes a =
    Nat.b2n (truthy (expectation_suite_name a) && truthy (batch_kwargs a))
    + Nat.b2n (truthy (assets_to_validate a))
    + Nat.b2n (truthy (checkpoint_name a)).
Proof.
  unfold supplied_modes, py_sum, py_and_bool. simpl.
  by destruct (truthy (expectation_suite_name a)).
Qed.

(** [run] raises its [ValueError] exactly when the count is not 1, provided
    the context is there. *)
Lemma run_rejects_iff a w ctx :
  out (load_context a w) = Ret ctx →
  (out (run a w) = Raise (ValueError exclusivity_message)
     ↔ supplied_modes a ≠ 1)
  ∧ ((∀ msg, out (run a w) ≠ Raise (ValueError msg)) ↔ supplied_modes a = 1).
Proof.
  intros Hctx.
  destruct (decide (supplied_modes a = 1)) as [Hm|Hm].
  - assert (∀ msg, out (run a w) ≠ Raise (ValueError msg)) as Hacc.
    { intros msg. generalize (run_trace a w).
      generalize (log (run a w)) (out (run a w)). intros l o Ht Ho.
      destruct Ht as [l e Hc|l ctx' Hc Hm'|l ctx' l' e Hc Hm' Ha
                     |l ctx' l' assets' op' l'' o Hc Hm' Ha Hv]; try done.
      destruct Hv as [e|results|results evs [e|]]; try done;
        unfold verdict_of in Ho; by destruct (is_False (success results)). }
    split; split; try done. intros Hrej. by destruct (Hacc _ Hrej).
  - assert (out (run a w) = Raise (ValueError exclusivity_message)) as Hrej.
    { unfold run. rewrite (bind_Ret _ _ _ _ Hctx). cbn [out].
      apply Nat.eqb_neq in Hm. by rewrite Hm. }
    split; split; try done. intros Hacc. by destruct (Hacc _ Hrej).
Qed.

(** A loading loop that returns has made, for every pairing in turn, the
    two calls that load its batch. *)
Lemma LoadTrace_Ret ctx ps l bs :
  LoadTrace ctx ps l (Ret bs) →
  ∃ loaded : list (Suite * Asset),
    length loaded = length ps
    ∧ l = concat (zip_with (load_events ctx) ps loaded)
    ∧ bs = loaded.*2.
Proof.
  intros Ht. remember (Ret bs) as o eqn:Ho. revert bs Ho.
  induction Ht as [|p ps e|p ps s e|p ps s b evs r H IH]; intros bs Ho;
    try done.
  - exists []. by simplify_eq.
  - destruct r as [bs'|e]; simplify_eq/=.
    destruct (IH bs' eq_refl) as (loaded & Hlen & -> & ->).
    exists ((s, b) :: loaded). simpl. by rewrite Hlen.
Qed.

(** A property of events that holds of every call outside the artifact
    block, and of the calls of that block when it runs, holds throughout
    the log. *)
Lemma run_log_Forall (P : Event → Prop) a w :
  (∀ ev, phase ev ≠ PArtifact → P ev) →
  (disable_markdown_artifact a = false →
   ∀ results l x, ArtifactTrace results l x → Forall P l) →
  Forall P (log (run a w)).
Proof.
  intros Hother Hartifact.
  assert (Hphase : ∀ l p, p ≠ PArtifact →
    Forall (λ ev, phase ev = p) l → Forall P l).
  { intros l p Hp Hl. eapply Forall_impl; [exact Hl|].
    intros ev Hev. apply Hother. by rewrite Hev. }
  destruct (run_trace a w) as [l e Hc|l ctx' Hc Hm|l ctx' l' e Hc Hm Ha
                              |l ctx' l' assets' op' l'' o Hc Hm Ha Hv].
  - by apply ContextTrace_phase, Hphase in Hc.
  - by apply ContextTrace_phase, Hphase in Hc.
  - apply ContextTrace_phase, Hphase in Hc; [|done].
    apply AssetsTrace_phase, Hphase in Ha; [|done]. by apply Forall_app.
  - apply ContextTrace_phase, Hphase in Hc; [|done].
    apply AssetsTrace_phase, Hphase in Ha; [|done].
    rewrite !Forall_app. split_and!; [done..|].
    destruct Hv as [e|results' Hdis|results' evs x Hdis Hart].
    + constructor; [by apply Hother | constructor].
    + constructor; [by apply Hother | constructor].
    + constructor; [by apply Hother | by eapply Hartifact].
Qed.

(** ** Properties of [run] *)

(** C1, amended.  A call that supplies none or several of the three input
    modes is rejected with the [ValueError] as soon as there is a context:
    with a context passed in, at once and without any foreign call; without
    one, right after [ge.DataContext(..)], the only foreign call of the run,
    and only if that call returns (what it raises propagates instead). *)
Theorem C1_rejected_once_context_is_there a w :
  supplied_modes a ≠ 1 →
  match context a with
  | Some _ =>
      run a w = mkRes (Raise (ValueError exclusivity_message)) w []
  | None =>
      let built :=
        new_DataContext (context_root_dir a)
          (py_or (runtime_environment a) (Some ∅)) w in
      log (run a w) =
        [EvDataContext (context_root_dir a)
           (py_or (runtime_environment a) (Some ∅)) built.1]
      ∧ out (run a w) =
          match built.1 with
          | Ret _ => Raise (ValueError exclusivity_message)
          | Raise e => Raise (Foreign e)
          end
  end.
Proof.
  intros Hmodes. apply Nat.eqb_neq in Hmodes.
  unfold run, load_context. destruct (context a) as [ctx|].
  - by rewrite bind_ret, Hmodes.
  - cbv zeta. rewrite bind_call.
    destruct (new_DataContext _ _ w) as [[ctx|e] w1]; cbn [fst snd]; [|done].
    by rewrite Hmodes.
Qed.

(** C3.  When the checkpoint name is the one mode supplied, the validation
    operator is called with the operator name the checkpoint declares,
    whatever [validation_operator] was passed, and with one batch per
    declared (batch_kwargs, suite name) pairing, in the order of the
    checkpoint's batches and of each batch's suite names: before the
    operator call the log holds [get_checkpoint] and then, pairing by
    pairing, [get_expectation_suite] on the suite name and [get_batch] on
    the batch_kwargs and the suite just loaded, and the assets are the
    batches these [get_batch] calls returned.  The operator is called unless
    one of the calls raised. *)
Theorem C3_checkpoint_expansion a w :
  truthy (checkpoint_name a) = true →
  supplied_modes a = 1 →
  (∀ l1 l2 ctx op assets rid ep r,
     log (run a w) =
       l1 ++ EvRunValidationOperator ctx op assets rid ep r :: l2 →
     ∃ l0 cp (loaded : list (Suite * Asset)),
       l1 = l0 ++ EvGetCheckpoint ctx (checkpoint_name a) (Ret cp)
                  :: concat (zip_with (load_events ctx) (pairings cp) loaded)
       ∧ Forall (λ ev, phase ev = PContext) l0
       ∧ length loaded = length (pairings cp)
       ∧ assets = Some (loaded.*2)
       ∧ op = cp_validation_operator_name cp)
  ∧ (Forall (λ ev, ev_raised ev = None) (log (run a w)) →
     Exists (λ ev, is_operator_call ev = true) (log (run a w))).
Proof.
  intros Hname Hmodes. split.
  - intros l1 l2 ctx op assets rid ep r Hlog.
    destruct (run_operator_inv _ _ _ _ _ _ _ _ _ _ _ (run_trace a w) Hlog)
      as (lc & la & -> & Hc & _ & Ha & _).
    rewrite supplied_modes_eq, Hname in Hmodes.
    inversion Ha as [Hgiven| |cp evs o _ _ Hload Hevs Ho|]; subst.
    + rewrite Hgiven in Hmodes. simpl in Hmodes. lia.
    + destruct o as [bs|]; simplify_eq/=.
      destruct (LoadTrace_Ret _ _ _ _ Hload) as (loaded & Hlen & -> & ->).
      exists lc, cp, loaded. split_and!; try done.
      by eapply ContextTrace_phase.
    + congruence.
  - generalize (run_trace a w).
    generalize (log (run a w)) (out (run a w)). intros l o Ht Hq.
    pose proof (RunTrace_ends _ _ _ Ht) as Hends.
    destruct Ht as [l e Hc|l ctx' Hc Hm|l ctx' l' e Hc Hm Ha
                   |l ctx' l' assets' op' l'' o Hc Hm Ha Hv].
    + by destruct (Ends_Quiet _ _ Hends).
    + done.
    + by destruct (Ends_Quiet _ _ Hends).
    + destruct (ValidateTrace_head _ _ _ _ _ _ Hv) as (r & tail & -> & _).
      rewrite !Exists_app. right. right. by apply Exists_cons_hd.
Qed.

(** C4, amended.  When the validation operator has returned a result whose
    [success] is [False] and no later call (rendering, publishing) raises,
    in particular when rendering is disabled, [run] raises [signals.FAIL]
    carrying exactly that result. *)
Theorem C4_failing_result_raises_FAIL a w l1 l2 ctx op assets rid ep results :
  log (run a w) =
    l1 ++ EvRunValidationOperator ctx op assets rid ep (Ret results) :: l2 →
  success results = Some false →
  Forall (λ ev, ev_raised ev = None) l2 →
  out (run a w) = Raise (FAIL results).
Proof.
  intros Hlog Hfalse Hq. rewrite (run_verdict _ _ _ _ _ _ _ _ _ _ Hlog Hq).
  unfold verdict_of. by rewrite Hfalse.
Qed.

(** C5, amended.  When the validation operator has returned a result whose
    [success] is [True] and no later call (rendering, publishing) raises,
    in particular when rendering is disabled, [run] returns that very
    result and raises nothing. *)
Theorem C5_successful_result_returned a w l1 l2 ctx op assets rid ep results :
  log (run a w) =
    l1 ++ EvRunValidationOperator ctx op assets rid ep (Ret results) :: l2 →
  success results = Some true →
  Forall (λ ev, ev_raised ev = None) l2 →
  out (run a w) = Ret results.
Proof.
  intros Hlog Htrue Hq. rewrite (run_verdict _ _ _ _ _ _ _ _ _ _ Hlog Hq).
  unfold verdict_of. by rewrite Htrue.
Qed.

(** C6.  With [disable_markdown_artifact] set, the log of the run holds no
    call of [create_markdown_artifact], whatever the verdict. *)
Theorem C6_disabled_artifact_never_published a w :
  disable_markdown_artifact a = true →
  Forall (λ ev, is_publish ev = false) (log (run a w)).
Proof.
  intros Hdis. apply run_log_Forall.
  - by intros [].
  - congruence.
Qed.

(** C7.  The run identifier handed to the validation operator is
    [{"run_name": run_name}] when a (non-empty) [run_name] is given, and
    [{"run_name": prefect.context.get("task_slug")}] otherwise. *)
Theorem C7_run_id a w l1 l2 ctx op assets rid ep r :
  log (run a w) = l1 ++ EvRunValidationOperator ctx op assets rid ep r :: l2 →
  (∀ name, run_name a = Some name → name ≠ "" →
     rid = {[ "run_name" := Some name ]})
  ∧ (run_name a = None ∨ run_name a = Some "" →
     rid = {[ "run_name" := prefect_context !! "task_slug" ]}).
Proof.
  intros Hlog.
  destruct (run_operator_inv _ _ _ _ _ _ _ _ _ _ _ (run_trace a w) Hlog)
    as (lc & la & _ & _ & _ & _ & Hv).
  assert (rid = run_id a) as -> by (inversion Hv; done).
  unfold run_id, py_or. split.
  - intros name -> Hname. by destruct name.
  - by intros [-> | ->].
Qed.

(** C8.  A foreign failure is neither caught nor changed: whenever a call
    made by [run] (building the context, looking up a checkpoint or a suite,
    loading a batch, running the operator, rendering, publishing) raises
    [e], no further call is made and [run] ends by raising that same [e]. *)
Theorem C8_foreign_failures_propagate a w l1 ev l2 e :
  log (run a w) = l1 ++ ev :: l2 →
  ev_raised ev = Some e →
  l2 = [] ∧ out (run a w) = Raise (Foreign e).
Proof.
  intros Hlog Hev.
  pose proof (RunTrace_ends _ _ _ (run_trace a w)) as Hends.
  rewrite Hlog in Hends.
  destruct (foreign_of (out (run a w))) as [e'|] eqn:Hout; simpl in Hends.
  - destruct Hends as (l' & ev' & Heq & Hq & Hev').
    symmetry in Heq.
    apply (split_unique (λ ev, ev_raised ev ≠ None)) in Heq
      as (-> & -> & ->); [| by rewrite Hev | | by constructor].
    + split; [done|]. rewrite Hev' in Hev. simplify_eq.
      destruct (out (run a w)) as [|[]]; by simplify_eq/=.
    + eapply Forall_impl; [exact Hq|]. simpl. intros ? ->. tauto.
  - unfold Quiet in Hends. rewrite Forall_app, Forall_cons in Hends.
    destruct Hends as (_ & Hev' & _). congruence.
Qed.

(** C9, amended.  What counts as a supplied mode is decided by truthiness.
    Once a context is there (passed in, or built without error), [run]
    raises its [ValueError] exactly when the number of truthy
    values among ([expectation_suite_name and batch_kwargs]),
    [assets_to_validate] and [checkpoint_name] is not 1.  So a suite name
    without batch_kwargs, or batch_kwargs without a suite name, is no mode:
    alone it is rejected, next to exactly one other mode it is accepted; and
    an empty list or dict is as good as absent. *)
Theorem C9_modes_are_counted_by_truthiness a w ctx :
  out (load_context a w) = Ret ctx →
  let rejected := out (run a w) = Raise (ValueError exclusivity_message) in
  let accepted := ∀ msg, out (run a w) ≠ Raise (ValueError msg) in
  let suite_and_batch :=
    truthy (expectation_suite_name a) && truthy (batch_kwargs a) in
  let count :=
    Nat.b2n suite_and_batch + Nat.b2n (truthy (assets_to_validate a))
    + Nat.b2n (truthy (checkpoint_name a)) in
  (rejected ↔ count ≠ 1)
  ∧ (accepted ↔ count = 1)
  ∧ (suite_and_batch = false →
     truthy (assets_to_validate a) = false →
     truthy (checkpoint_name a) = false → rejected)
  ∧ (suite_and_batch = false →
     truthy (assets_to_validate a) ≠ truthy (checkpoint_name a) → accepted)
  ∧ truthy (Some (@nil Asset)) = false
  ∧ truthy (Some (∅ : Dict)) = false.
Proof.
  intros Hctx. cbv zeta.
  destruct (run_rejects_iff a w ctx Hctx) as [Hrej Hacc].
  rewrite supplied_modes_eq in Hrej, Hacc.
  split_and!; [done..| | |done|done].
  - intros Hsb Has Hcp. apply Hrej. by rewrite Hsb, Has, Hcp.
  - intros Hsb Hne. apply Hacc. rewrite Hsb.
    by destruct (truthy (assets_to_validate a)),
      (truthy (checkpoint_name a)).
Qed.

(** C10.  With artifact rendering enabled, a run that ends with the verdict
    (the failure signal as much as the returned result) has by then
    rendered the result and published the artifact: its log ends with the
    operator call, the two rendering calls and the returned call of
    [create_markdown_artifact]. *)
Theorem C10_artifact_published_before_verdict a w results :
  disable_markdown_artifact a = false →
  out (run a w) = Raise (FAIL results) ∨ out (run a w) = Ret results →
  ∃ l ctx op assets doc parts aid,
    log (run a w) =
      l ++ [ EvRunValidationOperator ctx op assets (run_id a)
               (evaluation_parameters a) (Ret results);
             EvRenderResult true results (Ret doc);
             EvRenderMarkdown doc (Ret parts);
             EvCreateMarkdownArtifact (String.concat " " parts) (Ret aid) ].
Proof.
  intros Hdis. generalize (run_trace a w).
  generalize (log (run a w)) (out (run a w)). intros l o Ht Hout.
  assert (Hverdict : ∀ results', verdict_of results' = o → results' = results).
  { intros results'. unfold verdict_of.
    destruct (is_False (success results')); intros <-;
      by destruct Hout; simplify_eq. }
  destruct Ht as [l e Hc|l ctx' Hc Hm|l ctx' l' e Hc Hm Ha
                 |l ctx' l' assets' op' l'' o Hc Hm Ha Hv];
    [by destruct Hout..|].
  destruct Hv as [e|results' Hen|results' evs x _ Hart];
    [by destruct Hout|congruence|].
  destruct Hart as [e|doc e|doc parts e|doc parts aid]; [by destruct Hout..|].
  rewrite (Hverdict results') by done.
  exists (l ++ l'), ctx', op', assets', doc, parts, aid.
  by rewrite <- app_assoc.
Qed.

(** [run] never reads [run_info_at_end]: line 268 overwrites it. *)
Lemma run_info_at_end_unread a b w : run (with_run_info_at_end b a) w = run a w.
Proof. reflexivity. Qed.

(** Whatever [run_info_at_end] is, the renderer is built with
    [run_info_at_end=True]. *)
Lemma renderer_always_gets_True a w l1 l2 flag results r :
  log (run a w) = l1 ++ EvRenderResult flag results r :: l2 → flag = true.
Proof.
  intros Hlog.
  pose proof (run_log_Forall
    (λ ev, match ev with EvRenderResult f _ _ => f = true | _ => True end)
    a w) as Hall.
  rewrite Hlog, Forall_app, Forall_cons in Hall. apply Hall.
  - by intros [].
  - intros _ results' l x Hart. destruct Hart; by repeat constructor.
Qed.

End Properties.

(** * Further properties of [run] *)

Section Coverage.
Context {E : Externals}.

Local Abbreviation Dict := (gmap string PyObj).

(** ** Which context the calls are made on *)

Lemma LoadTrace_context ctx ps l r :
  LoadTrace ctx ps l r →
  Forall (λ ev, event_context ev = Some ctx ∧ is_get_checkpoint ev = false) l.
Proof. induction 1; repeat constructor; done. Qed.

Lemma AssetsTrace_context a ctx l r :
  AssetsTrace a ctx l r → Forall (λ ev, event_context ev = Some ctx) l.
Proof.
  destruct 1 as [|e|cp evs r ? ? Hload|r]; repeat constructor.
  eapply Forall_impl; [by eapply LoadTrace_context|]. by intros ? [? _].
Qed.

Lemma ArtifactTrace_context results l x :
  ArtifactTrace results l x → Forall (λ ev, event_context ev = None) l.
Proof. destruct 1; repeat constructor. Qed.

Lemma ValidateTrace_context a ctx assets op l o :
  ValidateTrace a ctx assets op l o →
  Forall (λ ev, ∀ c, event_context ev = Some c → c = ctx) l.
Proof.
  destruct 1 as [e|results|results evs x ? Hart];
    (constructor; [by intros c [= ->]|]); try constructor.
  eapply Forall_impl; [by eapply ArtifactTrace_context|].
  simpl. intros ev -> c. done.
Qed.

(** A run is the context block followed by calls on the context it gave. *)
Lemma RunTrace_rest a l o :
  RunTrace a l o →
  ∃ lc rc rest,
    ContextTrace a lc rc
    ∧ l = lc ++ rest
    ∧ Forall (λ ev, phase ev ≠ PContext
                    ∧ ∀ c, event_context ev = Some c → rc = Ret c) rest.
Proof.
  destruct 1 as [l e Hc|l ctx Hc Hm|l ctx l' e Hc Hm Ha
                |l ctx l' assets op l'' o Hc Hm Ha Hv].
  - exists l, (Raise e), []. by rewrite app_nil_r.
  - exists l, (Ret ctx), []. by rewrite app_nil_r.
  - exists l, (Ret ctx), l'. split_and!; [done..|].
    pose proof (AssetsTrace_phase _ _ _ _ Ha) as Hp.
    pose proof (AssetsTrace_context _ _ _ _ Ha) as Hx.
    rewrite Forall_forall in Hp, Hx. apply Forall_forall. intros ev Hev.
    split; [by rewrite (Hp ev Hev)|]. intros c Hc'.
    rewrite (Hx ev Hev) in Hc'. by simplify_eq.
  - exists l, (Ret ctx), (l' ++ l''). split_and!; [done..|].
    pose proof (AssetsTrace_phase _ _ _ _ Ha) as Hp.
    pose proof (AssetsTrace_context _ _ _ _ Ha) as Hx.
    pose proof (ValidateTrace_context _ _ _ _ _ _ Hv) as Hvx.
    destruct (ValidateTrace_head _ _ _ _ _ _ Hv) as (r & tail & -> & Htail).
    rewrite Forall_forall in Hp, Hx, Hvx. apply Forall_app. split.
    + apply Forall_forall. intros ev Hev.
      split; [by rewrite (Hp ev Hev)|]. intros c Hc'.
      rewrite (Hx ev Hev) in Hc'. by simplify_eq.
    + apply Forall_forall. intros ev Hev. split.
      * apply elem_of_cons in Hev as [->|Hev]; [done|].
        rewrite Forall_forall in Htail. by rewrite (Htail ev Hev).
      * intros c Hc'. by rewrite (Hvx ev Hev c Hc').
Qed.

(** [runtime_environment or dict()] is always a dict. *)
Lemma runtime_environment_or_dict (d : option Dict) :
  py_or d (Some ∅) = Some (default ∅ d).
Proof.
  destruct d as [d|]; [|done]. unfold py_or. simpl.
  change (truthy (Some d)) with (bool_decide (d ≠ ∅)).
  destruct (decide (d = ∅)) as [->|Hd].
  - by rewrite bool_decide_eq_false_2 by (intros Hne; by apply Hne).
  - by rewrite bool_decide_eq_true_2.
Qed.

(** X4.  With a context passed in, [ge.DataContext] is never called, and
    every lookup and the operator run are calls on that very context. *)
Theorem X4_passed_context_is_the_one_used a w c :
  context a = Some c →
  Forall (λ ev, phase ev ≠ PContext
                ∧ ∀ c', event_context ev = Some c' → c' = c) (log (run a w)).
Proof.
  intros Hctx.
  destruct (RunTrace_rest _ _ _ (run_trace a w)) as (lc & rc & rest & Hc & -> & Hrest).
  destruct Hc as [c' Hc'|r Hnone]; [|congruence].
  simpl. eapply Forall_impl; [exact Hrest|]. simpl.
  intros ev [Hph Hev]. split; [done|]. intros c'' Hc''.
  apply Hev in Hc''. congruence.
Qed.

(** X5.  Without a context passed in, the run starts with the one call of
    [ge.DataContext], on [context_root_dir] and on a dict that is never
    [None]: the [runtime_environment] given, or an empty one.  Every later
    call is a call on the context that call returned. *)
Theorem X5_context_is_built_once_and_first a w :
  context a = None →
  ∃ r rest,
    log (run a w) =
      EvDataContext (context_root_dir a)
        (Some (default ∅ (runtime_environment a))) r :: rest
    ∧ Forall (λ ev, phase ev ≠ PContext
                    ∧ ∀ c, event_context ev = Some c → r = Ret c) rest.
Proof.
  intros Hctx.
  destruct (RunTrace_rest _ _ _ (run_trace a w)) as (lc & rc & rest & Hc & -> & Hrest).
  destruct Hc as [c' Hc'|r Hnone]; [congruence|].
  rewrite runtime_environment_or_dict. by exists r, rest.
Qed.

(** ** The two other input modes *)

(** X1.  When a non-empty [assets_to_validate] is passed, nothing is looked
    up (no checkpoint, suite or batch call), and the validation operator, if
    it is called, gets that very list and the [validation_operator] name
    passed. *)
Theorem X1_given_assets_pass_through a w :
  truthy (assets_to_validate a) = true →
  Forall (λ ev, phase ev ≠ PAssets) (log (run a w))
  ∧ ∀ l1 l2 ctx op assets rid ep r,
      log (run a w) =
        l1 ++ EvRunValidationOperator ctx op assets rid ep r :: l2 →
      assets = assets_to_validate a ∧ op = validation_operator a.
Proof.
  intros Hassets. split.
  - assert (Hphase : ∀ l p, p ≠ PAssets →
      Forall (λ ev, phase ev = p) l → Forall (λ ev, phase ev ≠ PAssets) l).
    { intros l p Hp Hl. eapply Forall_impl; [exact Hl|]. simpl. congruence. }
    assert (Hnone : ∀ ctx l r, AssetsTrace a ctx l r → l = []).
    { intros ctx l r Ha. destruct Ha; congruence. }
    destruct (run_trace a w) as [l e Hc|l ctx Hc Hm|l ctx l' e Hc Hm Ha
                                |l ctx l' assets op l'' o Hc Hm Ha Hv].
    + by apply ContextTrace_phase, Hphase in Hc.
    + by apply ContextTrace_phase, Hphase in Hc.
    + apply Hnone in Ha as ->. rewrite app_nil_r.
      by apply ContextTrace_phase, Hphase in Hc.
    + apply Hnone in Ha as ->. simpl.
      apply ContextTrace_phase, Hphase in Hc; [|done].
      apply Forall_app. split; [done|].
      destruct (ValidateTrace_head _ _ _ _ _ _ Hv) as (r & tail & -> & Htail).
      constructor; [done|]. by apply Hphase in Htail.
  - intros l1 l2 ctx op assets rid ep r Hlog.
    destruct (run_operator_inv _ _ _ _ _ _ _ _ _ _ _ (run_trace a w) Hlog)
      as (lc & la & _ & _ & _ & Ha & _).
    inversion Ha as [Hgiven|e|cp evs o Hno|o Hno]; subst; try congruence.
    done.
Qed.

(** X2.  When a suite name and batch_kwargs are passed, the validation
    operator, if it is called, is called right after one [get_batch] on
    those batch_kwargs and on the suite by its name (no suite is loaded
    first), with the one batch that call returned and the
    [validation_operator] name passed. *)
Theorem X2_suite_and_batch_load_one_batch a w l1 l2 ctx op assets rid ep r :
  truthy (expectation_suite_name a) = true →
  truthy (batch_kwargs a) = true →
  log (run a w) = l1 ++ EvRunValidationOperator ctx op assets rid ep r :: l2 →
  ∃ l0 b,
    l1 = l0 ++ [EvGetBatch ctx (batch_kwargs a)
                  (SuiteName (expectation_suite_name a)) (Ret b)]
    ∧ Forall (λ ev, phase ev = PContext) l0
    ∧ assets = Some [b]
    ∧ op = validation_operator a.
Proof.
  intros Hname Hkwargs Hlog.
  destruct (run_operator_inv _ _ _ _ _ _ _ _ _ _ _ (run_trace a w) Hlog)
    as (lc & la & -> & Hc & Hmodes & Ha & _).
  rewrite supplied_modes_eq, Hname, Hkwargs in Hmodes. simpl in Hmodes.
  inversion Ha as [Hgiven|e|cp evs o Hno Hcp|o Hno Hcp]; subst.
  - rewrite Hgiven in Hmodes. simpl in Hmodes. lia.
  - rewrite Hcp in Hmodes. simpl in Hmodes. lia.
  - destruct o as [b|]; simplify_eq/=.
    exists lc, b. split_and!; try done. by eapply ContextTrace_phase.
Qed.

(** X3.  The validation operator gets the [evaluation_parameters] passed
    to [run], unchanged, in every mode. *)
Theorem X3_evaluation_parameters_forwarded a w l1 l2 ctx op assets rid ep r :
  log (run a w) = l1 ++ EvRunValidationOperator ctx op assets rid ep r :: l2 →
  ep = evaluation_parameters a.
Proof.
  intros Hlog.
  destruct (run_operator_inv _ _ _ _ _ _ _ _ _ _ _ (run_trace a w) Hlog)
    as (lc & la & _ & _ & _ & _ & Hv).
  by inversion Hv.
Qed.

(** ** What an outcome tells *)

(** A run that ends with a verdict ends with the verdict on what the
    operator returned. *)
Lemma RunTrace_verdict_inv a l o r :
  RunTrace a l o →
  o = Raise (FAIL r) ∨ o = Ret r →
  o = verdict_of r
  ∧ ∃ l1 l2 ctx op assets,
      l = l1 ++ EvRunValidationOperator ctx op assets (run_id a)
                  (evaluation_parameters a) (Ret r) :: l2.
Proof.
  intros Ht Ho.
  assert (Hverdict : ∀ r', verdict_of r' = o → r' = r).
  { intros r'. unfold verdict_of.
    destruct (is_False (success r')); intros <-; by destruct Ho; simplify_eq. }
  destruct Ht as [l e Hc|l ctx Hc Hm|l ctx l' e Hc Hm Ha
                 |l ctx l' assets op l'' o Hc Hm Ha Hv];
    [by destruct Ho..|].
  destruct Hv as [e|r' Hdis|r' evs x Hdis Hart]; [by destruct Ho| |].
  - rewrite (Hverdict r') by done. split; [done|].
    exists (l ++ l'), [], ctx, op, assets. by rewrite <- app_assoc.
  - destruct x as [e|]; [by destruct Ho|].
    rewrite (Hverdict r') by done. split; [done|].
    exists (l ++ l'), evs, ctx, op, assets. by rewrite <- app_assoc.
Qed.

(** X6.  [signals.FAIL] is raised only on a failure the engine reported:
    its payload is a result the validation operator returned in this run,
    and the [success] of that result is [False]. *)
Theorem X6_FAIL_only_for_a_reported_failure a w r :
  out (run a w) = Raise (FAIL r) →
  success r = Some false
  ∧ ∃ l1 l2 ctx op assets,
      log (run a w) =
        l1 ++ EvRunValidationOperator ctx op assets (run_id a)
                (evaluation_parameters a) (Ret r) :: l2.
Proof.
  intros Hout.
  destruct (RunTrace_verdict_inv _ _ _ r (run_trace a w)) as [Hv Hlog];
    [by left|].
  split; [|done]. rewrite Hout in Hv. unfold verdict_of in Hv.
  by destruct (success r) as [[]|].
Qed.

(** X7.  What [run] returns is a result the validation operator returned in
    this run, and never one whose [success] is [False]. *)
Theorem X7_returned_result_is_the_operators a w r :
  out (run a w) = Ret r →
  success r ≠ Some false
  ∧ ∃ l1 l2 ctx op assets,
      log (run a w) =
        l1 ++ EvRunValidationOperator ctx op assets (run_id a)
                (evaluation_parameters a) (Ret r) :: l2.
Proof.
  intros Hout.
  destruct (RunTrace_verdict_inv _ _ _ r (run_trace a w)) as [Hv Hlog];
    [by right|].
  split; [|done]. rewrite Hout in Hv. unfold verdict_of in Hv.
  intros Hfalse. by rewrite Hfalse in Hv.
Qed.

(** X8.  Only the value [False] fails the run: a result whose [success] is
    [None] (or anything that is not a bool) is returned like a successful
    one, provided no later call raises. *)
Theorem X8_success_None_is_returned a w l1 l2 ctx op assets rid ep results :
  log (run a w) =
    l1 ++ EvRunValidationOperator ctx op assets rid ep (Ret results) :: l2 →
  success results = None →
  Forall (λ ev, ev_raised ev = None) l2 →
  out (run a w) = Ret results.
Proof.
  intros Hlog Hnone Hq. rewrite (run_verdict _ _ _ _ _ _ _ _ _ _ Hlog Hq).
  unfold verdict_of. by rewrite Hnone.
Qed.

(** X9.  A [ValueError] out of [run] is the one of the exclusivity check:
    it carries the fixed message, the number of supplied modes is not 1,
    and nothing was looked up, validated, rendered or published; at most
    the context was built. *)
Theorem X9_ValueError_only_from_the_check a w msg :
  out (run a w) = Raise (ValueError msg) →
  msg = exclusivity_message
  ∧ supplied_modes a ≠ 1
  ∧ (log (run a w) = []
     ∨ ∃ ctx, log (run a w) =
         [EvDataContext (context_root_dir a)
            (Some (default ∅ (runtime_environment a))) (Ret ctx)]).
Proof.
  generalize (run_trace a w).
  generalize (log (run a w)) (out (run a w)). intros l o Ht Ho.
  destruct Ht as [l e Hc|l ctx Hc Hm|l ctx l' e Hc Hm Ha
                 |l ctx l' assets op l'' o Hc Hm Ha Hv]; try done.
  - simplify_eq. split_and!; [done..|].
    inversion Hc as [c Hgiven|rc Hnone]; subst; [by left|].
    right. exists ctx. by rewrite runtime_environment_or_dict.
  - destruct Hv as [e|results|results evs [e|]]; try done;
      unfold verdict_of in Ho; by destruct (is_False (success results)).
Qed.

(** ** How often and in which order *)

Lemma filter_none (P : Event → Prop) `{∀ ev, Decision (P ev)} (l : list Event) :
  Forall (λ ev, ¬ P ev) l → filter P l = [].
Proof.
  induction 1 as [|ev l Hev _ IH]; [done|].
  by rewrite filter_cons_False.
Qed.

Lemma filter_other_phase (P : Event → Prop) `{∀ ev, Decision (P ev)} p l :
  (∀ ev, P ev → phase ev ≠ p) →
  Forall (λ ev, phase ev = p) l → filter P l = [].
Proof.
  intros HP Hl. apply filter_none. eapply Forall_impl; [exact Hl|].
  simpl. intros ev Hev HPev. by apply (HP ev).
Qed.

(** X10.  In one run the validation operator is called at most once, and
    at most one artifact is published. *)
Theorem X10_one_validation_one_artifact_at_most a w :
  length (filter (λ ev, is_operator_call ev = true) (log (run a w))) ≤ 1
  ∧ length (filter (λ ev, is_publish ev = true) (log (run a w))) ≤ 1.
Proof.
  assert (Hop : ∀ p l, p ≠ POperator → Forall (λ ev, phase ev = p) l →
    filter (λ ev, is_operator_call ev = true) l = []).
  { intros p l Hp. apply filter_other_phase. by intros [] ? ?; simplify_eq/=. }
  assert (Hpub : ∀ p l, p ≠ PArtifact → Forall (λ ev, phase ev = p) l →
    filter (λ ev, is_publish ev = true) l = []).
  { intros p l Hp. apply filter_other_phase. by intros [] ? ?; simplify_eq/=. }
  destruct (run_trace a w) as [l e Hc|l ctx Hc Hm|l ctx l' e Hc Hm Ha
                              |l ctx l' assets op l'' o Hc Hm Ha Hv].
  - apply ContextTrace_phase in Hc.
    rewrite (Hop PContext), (Hpub PContext) by done. simpl. lia.
  - apply ContextTrace_phase in Hc.
    rewrite (Hop PContext), (Hpub PContext) by done. simpl. lia.
  - apply ContextTrace_phase in Hc. apply AssetsTrace_phase in Ha.
    rewrite !filter_app, (Hop PContext), (Hpub PContext), (Hop PAssets),
      (Hpub PAssets) by done. simpl. lia.
  - apply ContextTrace_phase in Hc. apply AssetsTrace_phase in Ha.
    rewrite !filter_app, (Hop PContext), (Hpub PContext), (Hop PAssets),
      (Hpub PAssets) by done. simpl.
    destruct Hv as [e|results|results evs x _ Hart]; [simpl; lia..|].
    rewrite filter_cons_True, filter_cons_False by done.
    pose proof (ArtifactTrace_phase _ _ _ Hart) as Hp.
    rewrite (Hop PArtifact) by done.
    destruct Hart; simpl; lia.
Qed.

Lemma one_phase_sorted p (l : list Event) :
  Forall (λ ev, phase ev = p) l → StronglySorted not_after l.
Proof.
  induction 1 as [|ev l Hev Hl IH]; constructor; [done|].
  eapply Forall_impl; [exact Hl|]. unfold not_after. simpl.
  intros ev' ->. by rewrite Hev.
Qed.

Lemma phases_sorted p q (l1 l2 : list Event) :
  phase_rank p ≤ phase_rank q →
  Forall (λ ev, phase ev = p) l1 →
  Forall (λ ev, phase_rank q ≤ phase_rank (phase ev)) l2 →
  StronglySorted not_after l2 →
  StronglySorted not_after (l1 ++ l2).
Proof.
  intros Hpq H1 H2 Hs. apply StronglySorted_app_2; [|by eapply one_phase_sorted|done].
  rewrite Forall_forall in H1, H2. intros ev1 ev2 Hev1 Hev2.
  unfold not_after. rewrite (H1 ev1 Hev1). specialize (H2 ev2 Hev2). lia.
Qed.

(** X11.  The calls of a run come in the order of the blocks of [run]: the
    context is built before anything is looked up, every lookup precedes
    the operator run, and rendering and publishing come after it.  No call
    is followed by a call of an earlier block. *)
Theorem X11_calls_follow_the_blocks a w :
  StronglySorted not_after (log (run a w)).
Proof.
  assert (Hrank : ∀ p q (l : list Event), phase_rank q ≤ phase_rank p →
    Forall (λ ev, phase ev = p) l →
    Forall (λ ev, phase_rank q ≤ phase_rank (phase ev)) l).
  { intros p q l Hqp Hl. eapply Forall_impl; [exact Hl|]. by intros ev ->. }
  destruct (run_trace a w) as [l e Hc|l ctx Hc Hm|l ctx l' e Hc Hm Ha
                              |l ctx l' assets op l'' o Hc Hm Ha Hv].
  - by eapply one_phase_sorted, ContextTrace_phase.
  - by eapply one_phase_sorted, ContextTrace_phase.
  - apply ContextTrace_phase in Hc. apply AssetsTrace_phase in Ha.
    apply (phases_sorted PContext PAssets); [simpl; lia|done| |].
    + by apply (Hrank PAssets).
    + by eapply one_phase_sorted.
  - apply ContextTrace_phase in Hc. apply AssetsTrace_phase in Ha.
    destruct (ValidateTrace_head _ _ _ _ _ _ Hv) as (r & tail & -> & Htail).
    assert (Hop : StronglySorted not_after
      (EvRunValidationOperator ctx op assets (run_id a)
         (evaluation_parameters a) r :: tail)).
    { constructor; [by eapply one_phase_sorted|].
      eapply Forall_impl; [exact Htail|]. unfold not_after. simpl.
      intros ev ->. simpl. lia. }
    apply (phases_sorted PContext PContext); [done|done| |].
    + apply Forall_app. split; [by apply (Hrank PAssets); [simpl; lia|]|].
      constructor; [simpl; lia|]. apply (Hrank PArtifact); [simpl; lia|done].
    + apply (phases_sorted PAssets POperator); [simpl; lia|done| |done].
      constructor; [done|]. apply (Hrank PArtifact); [simpl; lia|done].
Qed.

(** ** A checkpoint that declares no pairing *)

Lemma pairings_nil (cp : Checkpoint Dict) :
  Forall (λ b, cb_expectation_suite_names b = []) (cp_batches cp) →
  pairings cp = [].
Proof.
  unfold pairings. induction 1 as [|b bs Hb _ IH]; [done|].
  simpl. by rewrite Hb, IH.
Qed.

Lemma AssetsTrace_checkpoint_cases a ctx l ro :
  AssetsTrace a ctx l ro →
  Forall (λ ev, ¬ is_get_checkpoint ev = true) l
  ∨ (∃ e, l = [EvGetCheckpoint ctx (checkpoint_name a) (Raise e)])
  ∨ (∃ cp evs r,
       l = EvGetCheckpoint ctx (checkpoint_name a) (Ret cp) :: evs
       ∧ LoadTrace ctx (pairings cp) evs r
       ∧ ro = map_outcome (λ bs, (Some bs, cp_validation_operator_name cp)) r).
Proof.
  destruct 1 as [|e|cp evs r ? ? Hload|r].
  - left. constructor.
  - right. left. by exists e.
  - right. right. by exists cp, evs, r.
  - left. by repeat constructor.
Qed.

(** X12.  A checkpoint without batches, or whose batches list no suite, is
    not an error: once [get_checkpoint] has returned it, the next call is
    the validation operator, named by the checkpoint, on an empty list of
    assets. *)
Theorem X12_checkpoint_without_suites_validates_nothing
    a w l0 ctx name cp rest :
  log (run a w) = l0 ++ EvGetCheckpoint ctx name (Ret cp) :: rest →
  Forall (λ b, cb_expectation_suite_names b = []) (cp_batches cp) →
  ∃ r tail,
    rest = EvRunValidationOperator ctx (cp_validation_operator_name cp)
             (Some []) (run_id a) (evaluation_parameters a) r :: tail.
Proof.
  intros Hlog Hcp. apply pairings_nil in Hcp.
  assert (Hphase : ∀ l p, p ≠ PAssets → Forall (λ ev, phase ev = p) l →
    Forall (λ ev, ¬ is_get_checkpoint ev = true) l).
  { intros l p Hp Hl. eapply Forall_impl; [exact Hl|].
    intros [] ? ?; simplify_eq/=. }
  assert (Hno : ∀ l, Forall (λ ev, ¬ is_get_checkpoint ev = true) l →
    l ≠ l0 ++ EvGetCheckpoint ctx name (Ret cp) :: rest).
  { intros l Hall ->. rewrite Forall_app, Forall_cons in Hall.
    by destruct Hall as (_ & ? & _). }
  assert (Hloads : ∀ c ps evs r, LoadTrace c ps evs r →
    Forall (λ ev, ¬ is_get_checkpoint ev = true) evs).
  { intros c ps evs r Hload.
    eapply Forall_impl; [by eapply LoadTrace_context|].
    simpl. by intros ev [_ ->]. }
  revert Hlog. generalize (run_trace a w).
  generalize (log (run a w)) (out (run a w)). intros l o Ht Hlog.
  destruct Ht as [l e Hc|l ctx' Hc Hm|l ctx' l' e Hc Hm Ha
                 |l ctx' l' assets op l'' o Hc Hm Ha Hv].
  - apply ContextTrace_phase, Hphase, Hno in Hc; done.
  - apply ContextTrace_phase, Hphase, Hno in Hc; done.
  - apply ContextTrace_phase, Hphase in Hc; [|done].
    destruct (AssetsTrace_checkpoint_cases _ _ _ _ Ha)
      as [Hnone|[(e' & ->)|(cp' & evs & r' & -> & Hload & Hro)]].
    + destruct (Hno (l ++ l')); [by apply Forall_app|done].
    + apply (split_unique (λ ev, is_get_checkpoint ev = true)) in Hlog
        as (_ & ? & _); [done|done|done|constructor].
    + apply (split_unique (λ ev, is_get_checkpoint ev = true)) in Hlog
        as (_ & Hev & Hrest); [|done|done|by eapply Hloads].
      simplify_eq. rewrite Hcp in Hload. inversion Hload; subst.
      simpl in Hro. discriminate.
  - apply ContextTrace_phase, Hphase in Hc; [|done].
    destruct (ValidateTrace_head _ _ _ _ _ _ Hv) as (r & tail & -> & Htail).
    assert (Hv' : Forall (λ ev, ¬ is_get_checkpoint ev = true)
      (EvRunValidationOperator ctx' op assets (run_id a)
         (evaluation_parameters a) r :: tail)).
    { constructor; [done|]. by apply (Hphase _ PArtifact). }
    destruct (AssetsTrace_checkpoint_cases _ _ _ _ Ha)
      as [Hnone|[(e' & ->)|(cp' & evs & r' & -> & Hload & Hro)]].
    + destruct (Hno (l ++ l' ++ EvRunValidationOperator ctx' op assets
                 (run_id a) (evaluation_parameters a) r :: tail)); [|done].
      rewrite !Forall_app. by split_and!.
    + by inversion Ha.
    + simpl in Hlog.
      apply (split_unique (λ ev, is_get_checkpoint ev = true)) in Hlog
        as (_ & Hev & Hrest); [|done|done|].
      * simplify_eq. rewrite Hcp in Hload. inversion Hload; subst.
        simplify_eq/=. by eexists _, _.
      * apply Forall_app. split; [by eapply Hloads|done].
Qed.

End Coverage.

(** * Runs in the small world *)

(** Read the elements of a list of events at the type the list is
    expected to have. *)
#[local] Arguments cons {A} & _ _.

(** C2.  [run(assets_to_validate=[<batch>], run_info_at_end=False)] with
    rendering enabled: the renderer is nevertheless built with
    [run_info_at_end=True], so the published artifact carries the run
    information, exactly as in the run with [run_info_at_end=True]. *)
Theorem C2_run_info_at_end_False_is_overwritten :
  log (run (Toy.by_assets_no_run_info Toy.healthy) 0) =
    [ EvRunValidationOperator 7 "action_list_operator" (Some [Toy.a_batch])
        {[ "run_name" := Some "validate-1" ]} None
        (Ret (Toy.result_of Toy.healthy));
      EvRenderResult true (Toy.result_of Toy.healthy)
        (Ret (true, Toy.result_of Toy.healthy));
      EvRenderMarkdown (true, Toy.result_of Toy.healthy)
        (Ret ["# Validation Results"; "Run info"]);
      EvCreateMarkdownArtifact "# Validation Results Run info" (Ret 3) ]
  ∧ run (Toy.by_assets_no_run_info Toy.healthy) 0 =
      run (Toy.by_assets Toy.healthy) 0.
Proof. split; reflexivity. Qed.

(** C1, as stated, fails: called with no argument at all, [run] first
    builds a context, so the engine has been contacted by the time the call
    is rejected; and where building the context raises, the call does not
    end with the [ValueError] at all. *)
Lemma C1_counterexample_context_is_built_first :
  supplied_modes (Toy.no_args Toy.healthy) = 0
  ∧ run (Toy.no_args Toy.healthy) 0 =
      mkRes (Raise (ValueError exclusivity_message)) 1
        [EvDataContext None (Some ∅) (Ret 0)]
  ∧ log (run (Toy.no_args Toy.healthy) 0) ≠ []
  ∧ supplied_modes (Toy.no_args Toy.no_project) = 0
  ∧ run (Toy.no_args Toy.no_project) 0 =
      mkRes (Raise (Foreign "ConfigNotFoundError")) 1
        [EvDataContext None (Some ∅) (Raise "ConfigNotFoundError")]
  ∧ ¬ (∃ msg, out (run (Toy.no_args Toy.no_project) 0)
               = Raise (ValueError msg)).
Proof.
  assert (Hrun : run (Toy.no_args Toy.no_project) 0 =
            mkRes (Raise (Foreign "ConfigNotFoundError")) 1
              [EvDataContext None (Some ∅) (Raise "ConfigNotFoundError")])
    by reflexivity.
  split_and!; try reflexivity.
  - change (log (run (Toy.no_args Toy.healthy) 0))
      with [@EvDataContext (Toy.externals Toy.healthy) None (Some ∅) (Ret 0)].
    discriminate.
  - rewrite Hrun. intros [msg Hmsg]. discriminate.
Qed.

(** C4, as stated, fails: the operator returns a failing result, the
    artifact backend then raises, and [run] ends with that exception
    instead of [signals.FAIL]. *)
Lemma C4_counterexample_publishing_raises_first :
  log (run (Toy.by_assets (Toy.unpublishable (Some false))) 0) =
    [ EvRunValidationOperator 7 "action_list_operator" (Some [Toy.a_batch])
        {[ "run_name" := Some "validate-1" ]} None
        (Ret (Toy.result_of (Toy.unpublishable (Some false))));
      EvRenderResult true (Toy.result_of (Toy.unpublishable (Some false)))
        (Ret (true, Toy.result_of (Toy.unpublishable (Some false))));
      EvRenderMarkdown (true, Toy.result_of (Toy.unpublishable (Some false)))
        (Ret ["# Validation Results"; "Run info"]);
      EvCreateMarkdownArtifact "# Validation Results Run info"
        (Raise "ClientError") ]
  ∧ @success (Toy.externals (Toy.unpublishable (Some false)))
      (Toy.result_of (Toy.unpublishable (Some false))) = Some false
  ∧ out (run (Toy.by_assets (Toy.unpublishable (Some false))) 0) =
      Raise (Foreign "ClientError")
  ∧ out (run (Toy.by_assets (Toy.unpublishable (Some false))) 0) ≠
      Raise (FAIL (Toy.result_of (Toy.unpublishable (Some false)))).
Proof.
  split_and!; try reflexivity.
  intros Hout. apply (f_equal foreign_of) in Hout. discriminate.
Qed.

(** C5, as stated, fails: the operator returns a successful result, the
    artifact backend then raises, and [run] raises instead of returning the
    result. *)
Lemma C5_counterexample_publishing_raises_first :
  log (run (Toy.by_assets (Toy.unpublishable (Some true))) 0) =
    [ EvRunValidationOperator 7 "action_list_operator" (Some [Toy.a_batch])
        {[ "run_name" := Some "validate-1" ]} None
        (Ret (Toy.result_of (Toy.unpublishable (Some true))));
      EvRenderResult true (Toy.result_of (Toy.unpublishable (Some true)))
        (Ret (true, Toy.result_of (Toy.unpublishable (Some true))));
      EvRenderMarkdown (true, Toy.result_of (Toy.unpublishable (Some true)))
        (Ret ["# Validation Results"; "Run info"]);
      EvCreateMarkdownArtifact "# Validation Results Run info"
        (Raise "ClientError") ]
  ∧ @success (Toy.externals (Toy.unpublishable (Some true)))
      (Toy.result_of (Toy.unpublishable (Some true))) = Some true
  ∧ out (run (Toy.by_assets (Toy.unpublishable (Some true))) 0) =
      Raise (Foreign "ClientError")
  ∧ out (run (Toy.by_assets (Toy.unpublishable (Some true))) 0) ≠
      Ret (Toy.result_of (Toy.unpublishable (Some true))).
Proof.
  split_and!; try reflexivity.
  intros Hout. apply (f_equal foreign_of) in Hout. discriminate.
Qed.

(** C9, as stated, fails in one respect: a suite name alone, passed without
    a context where none can be built, is not rejected with the
    [ValueError]; what [ge.DataContext(..)] raises comes first. *)
Lemma C9_counterexample_context_raises_first :
  truthy (expectation_suite_name (Toy.by_suite_name_alone Toy.no_project)) = true
  ∧ truthy (batch_kwargs (Toy.by_suite_name_alone Toy.no_project)) = false
  ∧ truthy (assets_to_validate (Toy.by_suite_name_alone Toy.no_project)) = false
  ∧ truthy (checkpoint_name (Toy.by_suite_name_alone Toy.no_project)) = false
  ∧ run (Toy.by_suite_name_alone Toy.no_project) 0 =
      mkRes (Raise (Foreign "ConfigNotFoundError")) 1
        [EvDataContext None (Some ∅) (Raise "ConfigNotFoundError")]
  ∧ ¬ (∃ msg, out (run (Toy.by_suite_name_alone Toy.no_project) 0)
               = Raise (ValueError msg)).
Proof.
  split_and!; try reflexivity.
  intros [msg Hmsg]. apply (f_equal foreign_of) in Hmsg. discriminate.
Qed.

(** ** The theorems at work *)

(** C1 on [run()]: no mode supplied, no context passed; the context is
    built, then the call is rejected. *)
Lemma C1_witness_no_args :
  log (run (Toy.no_args Toy.healthy) 0) = [EvDataContext None (Some ∅) (Ret 0)]
  ∧ out (run (Toy.no_args Toy.healthy) 0) =
      Raise (ValueError exclusivity_message).
Proof.
  refine (C1_rejected_once_context_is_there (Toy.no_args Toy.healthy) 0 _).
  discriminate.
Defined.

(** C3 on [run(checkpoint_name="nightly")]: the operator named by the
    checkpoint, not the default one, gets the three batches of the three
    pairings. *)
Lemma C3_witness_nightly :
  ∃ (l0 : list (@Event (Toy.externals Toy.healthy))) cp
    (loaded : list (string * (option (gmap string string) * SuiteArg string))),
    take 7 (log (run (Toy.by_checkpoint Toy.healthy) 0)) =
      l0 ++ EvGetCheckpoint 7 (Some "nightly") (Ret cp)
         :: concat (zip_with (load_events (E:=Toy.externals Toy.healthy) 7)
                      (pairings cp) loaded)
    ∧ Forall (λ ev, phase ev = PContext) l0
    ∧ length loaded = length (pairings cp)
    ∧ Some Toy.nightly_batches = Some (loaded.*2)
    ∧ "nightly_operator" = cp_validation_operator_name cp.
Proof.
  refine (proj1 (C3_checkpoint_expansion (Toy.by_checkpoint Toy.healthy) 0 _ _)
            (take 7 (log (run (Toy.by_checkpoint Toy.healthy) 0)))
            (drop 8 (log (run (Toy.by_checkpoint Toy.healthy) 0)))
            7 "nightly_operator" (Some Toy.nightly_batches)
            {[ "run_name" := Some "validate-1" ]} None
            (Ret {| Toy.res_success := Some true;
                    Toy.res_assets := Some Toy.nightly_batches |}) _);
    reflexivity.
Defined.

(** C4 on a failing validation with a working backend. *)
Lemma C4_witness_failing :
  out (run (Toy.by_assets Toy.failing) 0) =
    Raise (FAIL (Toy.result_of Toy.failing)).
Proof.
  eapply (C4_failing_result_raises_FAIL (Toy.by_assets Toy.failing) 0 []);
    [reflexivity | reflexivity | repeat constructor].
Defined.

(** C5 on a passing validation with a working backend. *)
Lemma C5_witness_passing :
  out (run (Toy.by_assets Toy.healthy) 0) = Ret (Toy.result_of Toy.healthy).
Proof.
  eapply (C5_successful_result_returned (Toy.by_assets Toy.healthy) 0 []);
    [reflexivity | reflexivity | repeat constructor].
Defined.

(** C6 on [run(assets_to_validate=.., disable_markdown_artifact=True)]. *)
Lemma C6_witness_disabled :
  Forall (λ ev, is_publish ev = false)
    (log (run (Toy.by_assets_no_artifact Toy.healthy) 0)).
Proof.
  apply (C6_disabled_artifact_never_published
           (Toy.by_assets_no_artifact Toy.healthy) 0).
  reflexivity.
Defined.

(** C7 on a call without [run_name]: the task slug of the context is used. *)
Lemma C7_witness_task_slug :
  (∀ name, run_name (Toy.by_assets Toy.healthy) = Some name → name ≠ "" →
     ({[ "run_name" := Some "validate-1" ]} : gmap string (option string))
       = {[ "run_name" := Some name ]})
  ∧ (run_name (Toy.by_assets Toy.healthy) = None
     ∨ run_name (Toy.by_assets Toy.healthy) = Some "" →
     ({[ "run_name" := Some "validate-1" ]} : gmap string (option string))
       = {[ "run_name" :=
             @prefect_context (Toy.externals Toy.healthy) !! "task_slug" ]}).
Proof.
  eapply (C7_run_id (Toy.by_assets Toy.healthy) 0 []). reflexivity.
Defined.

(** C8 on a renderer that raises. *)
Lemma C8_witness_renderer_raises :
  out (run (Toy.by_assets Toy.unrenderable) 0) =
    Raise (Foreign "RenderingError").
Proof.
  refine (proj2 (C8_foreign_failures_propagate
                   (Toy.by_assets Toy.unrenderable) 0 [_] _ []
                   "RenderingError" _ _)); reflexivity.
Defined.

(** C9 on [run(checkpoint_name="nightly", expectation_suite_name="a.warning")]:
    the suite name without batch_kwargs does not count, the call is
    accepted. *)
Lemma C9_witness_suite_name_beside_checkpoint :
  out (load_context (Toy.by_checkpoint_and_suite_name Toy.healthy) 0) = Ret 7
  ∧ ∀ msg, out (run (Toy.by_checkpoint_and_suite_name Toy.healthy) 0)
           ≠ Raise (ValueError msg).
Proof.
  split; [reflexivity|].
  refine (proj1 (proj2 (proj2 (proj2
            (C9_modes_are_counted_by_truthiness
               (Toy.by_checkpoint_and_suite_name Toy.healthy) 0 7 _)))) _ _).
  - reflexivity.
  - reflexivity.
  - discriminate.
Defined.

(** C10 on a failing validation: the artifact is out before [FAIL]. *)
Lemma C10_witness_failing :
  ∃ l ctx op assets doc parts aid,
    log (run (Toy.by_assets Toy.failing) 0) =
      l ++ [ EvRunValidationOperator ctx op assets
               (run_id (Toy.by_assets Toy.failing))
               (evaluation_parameters (Toy.by_assets Toy.failing))
               (Ret (Toy.result_of Toy.failing));
             EvRenderResult true (Toy.result_of Toy.failing) (Ret doc);
             EvRenderMarkdown doc (Ret parts);
             EvCreateMarkdownArtifact (String.concat " " parts) (Ret aid) ].
Proof.
  apply (C10_artifact_published_before_verdict (Toy.by_assets Toy.failing) 0).
  - reflexivity.
  - left. reflexivity.
Defined.

(** ** The further properties at work *)

(** X1 on [run(assets_to_validate=[<batch>])]. *)
Lemma X1_witness_by_assets :
  Forall (λ ev, phase ev ≠ PAssets) (log (run (Toy.by_assets Toy.healthy) 0))
  ∧ (Some [Toy.a_batch] = assets_to_validate (Toy.by_assets Toy.healthy)
     ∧ "action_list_operator" = validation_operator (Toy.by_assets Toy.healthy)).
Proof.
  destruct (X1_given_assets_pass_through (Toy.by_assets Toy.healthy) 0 eq_refl)
    as [Hnone Hop].
  split; [exact Hnone|]. eapply (Hop []). reflexivity.
Defined.

(** X2 on [run(batch_kwargs=.., expectation_suite_name="a.warning")]. *)
Lemma X2_witness_by_suite_and_batch :
  ∃ (l0 : list (@Event (Toy.externals Toy.healthy))) b,
    take 1 (log (run (Toy.by_suite_and_batch Toy.healthy) 0)) =
      l0 ++ [EvGetBatch 7 (batch_kwargs (Toy.by_suite_and_batch Toy.healthy))
               (SuiteName
                  (expectation_suite_name (Toy.by_suite_and_batch Toy.healthy)))
               (Ret b)]
    ∧ Forall (λ ev, phase ev = PContext) l0
    ∧ Some [Toy.a_batch] = Some [b]
    ∧ "action_list_operator" =
        validation_operator (Toy.by_suite_and_batch Toy.healthy).
Proof.
  eapply (X2_suite_and_batch_load_one_batch
            (Toy.by_suite_and_batch Toy.healthy) 0); reflexivity.
Defined.

(** X3 on a call that passes no evaluation parameters. *)
Lemma X3_witness_no_parameters :
  (None : option (gmap string string)) =
    evaluation_parameters (Toy.by_assets Toy.healthy).
Proof.
  eapply (X3_evaluation_parameters_forwarded (Toy.by_assets Toy.healthy) 0 []).
  reflexivity.
Defined.

(** X4 on [run(checkpoint_name="nightly", context=<context 7>)]. *)
Lemma X4_witness_context_7 :
  Forall (λ ev : @Event (Toy.externals Toy.healthy),
            phase ev ≠ PContext ∧ ∀ c', event_context ev = Some c' → c' = 7)
    (log (run (Toy.by_checkpoint Toy.healthy) 0)).
Proof.
  apply (X4_passed_context_is_the_one_used (Toy.by_checkpoint Toy.healthy) 0 7).
  reflexivity.
Defined.

(** X5 on [run(assets_to_validate=[<batch>])] without a context. *)
Lemma X5_witness_context_built :
  ∃ r rest,
    log (run (Toy.by_assets_without_context Toy.healthy) 0) =
      EvDataContext
        (context_root_dir (Toy.by_assets_without_context Toy.healthy))
        (Some (default ∅
           (runtime_environment (Toy.by_assets_without_context Toy.healthy))))
        r :: rest
    ∧ Forall (λ ev, phase ev ≠ PContext
                    ∧ ∀ c, event_context ev = Some c → r = Ret c) rest.
Proof.
  apply (X5_context_is_built_once_and_first
           (Toy.by_assets_without_context Toy.healthy) 0).
  reflexivity.
Defined.

(** X6 on a failing validation. *)
Lemma X6_witness_failing :
  @success (Toy.externals Toy.failing) (Toy.result_of Toy.failing) = Some false
  ∧ ∃ l1 l2 ctx op assets,
      log (run (Toy.by_assets Toy.failing) 0) =
        l1 ++ EvRunValidationOperator ctx op assets
                (run_id (Toy.by_assets Toy.failing))
                (evaluation_parameters (Toy.by_assets Toy.failing))
                (Ret (Toy.result_of Toy.failing)) :: l2.
Proof.
  apply (X6_FAIL_only_for_a_reported_failure (Toy.by_assets Toy.failing) 0).
  reflexivity.
Defined.

(** X7 on a passing validation. *)
Lemma X7_witness_passing :
  @success (Toy.externals Toy.healthy) (Toy.result_of Toy.healthy) ≠ Some false
  ∧ ∃ l1 l2 ctx op assets,
      log (run (Toy.by_assets Toy.healthy) 0) =
        l1 ++ EvRunValidationOperator ctx op assets
                (run_id (Toy.by_assets Toy.healthy))
                (evaluation_parameters (Toy.by_assets Toy.healthy))
                (Ret (Toy.result_of Toy.healthy)) :: l2.
Proof.
  apply (X7_returned_result_is_the_operators (Toy.by_assets Toy.healthy) 0).
  reflexivity.
Defined.

(** X8 on a validation whose result has [success = None]. *)
Lemma X8_witness_undecided :
  out (run (Toy.by_assets Toy.undecided) 0) =
    Ret (Toy.result_of Toy.undecided).
Proof.
  eapply (X8_success_None_is_returned (Toy.by_assets Toy.undecided) 0 []);
    [reflexivity | reflexivity | repeat constructor].
Defined.

(** X9 on [run()]. *)
Lemma X9_witness_no_args :
  exclusivity_message = exclusivity_message
  ∧ supplied_modes (Toy.no_args Toy.healthy) ≠ 1
  ∧ (log (run (Toy.no_args Toy.healthy) 0) = []
     ∨ ∃ ctx, log (run (Toy.no_args Toy.healthy) 0) =
         [EvDataContext (context_root_dir (Toy.no_args Toy.healthy))
            (Some (default ∅ (runtime_environment (Toy.no_args Toy.healthy))))
            (Ret ctx)]).
Proof.
  apply (X9_ValueError_only_from_the_check (Toy.no_args Toy.healthy) 0).
  reflexivity.
Defined.

(** X12 on [run(checkpoint_name="hollow")]. *)
Lemma X12_witness_hollow :
  ∃ r tail,
    drop 1 (log (run (Toy.by_hollow_checkpoint Toy.hollow) 0)) =
      EvRunValidationOperator 7
        (cp_validation_operator_name Toy.hollow_checkpoint) (Some [])
        (run_id (Toy.by_hollow_checkpoint Toy.hollow))
        (evaluation_parameters (Toy.by_hollow_checkpoint Toy.hollow)) r
      :: tail.
Proof.
  eapply (X12_checkpoint_without_suites_validates_nothing
            (Toy.by_hollow_checkpoint Toy.hollow) 0 [] 7 (Some "hollow")
            Toy.hollow_checkpoint).
  - reflexivity.
  - repeat constructor.
Defined.
